(** * Price analysis report builder: grouping, markup preview, workbook export

    A shallow embedding of [excel_summary_19.py].  The script loads a table of
    supplier quotes, groups it by (code, Power Type), renders every group as an
    HTML comparison table ([generate_html_table]) and, on demand, as a block of
    cells of one worksheet (the "Generate Excel File" handler).

    Conventions of the embedding:
    - a pandas object cell is [option string]: [None] is a missing value (NaN);
    - Python floats are binary64 primitive floats, so sums and products round
      exactly as the interpreter does;
    - Python ints are [Z];
    - an exception is the [Raise] branch of [result];
    - the worksheet is a finite map from (row, column) to cells, and the handler
      is the sequence of cell writes it performs. *)

From Stdlib Require Import ZArith QArith Qabs Floats String Ascii DecimalString.
From stdpp Require Import gmap strings list fin_maps.

Local Open Scope Z_scope.

(** ** Python runtime: exceptions, numbers, string formatting *)

Module Py.

Record exn := { exc_class : string; exc_msg : string }.

Inductive result (A : Type) : Type :=
| Ok (a : A)
| Raise (e : exn).
Arguments Ok {A} a.
Arguments Raise {A} e.

#[global] Instance result_ret : MRet result := @Ok.
#[global] Instance result_bind : MBind result :=
  λ A B f m, match m with Ok a => f a | Raise e => Raise e end.
#[global] Instance result_fmap : FMap result :=
  λ A B f m, match m with Ok a => Ok (f a) | Raise e => Raise e end.

(** [for x in l: s = f(s, x)], where the body may raise. *)
Fixpoint for_each {A S : Type} (f : S → A → result S) (l : list A) (s : S)
  : result S :=
  match l with
  | [] => Ok s
  | x :: l' => s' ← f s x; for_each f l' s'
  end.

(** pandas: [.iloc[0]] on an empty selection. *)
Definition IndexError_iloc : exn :=
  {| exc_class := "IndexError";
     exc_msg := "single positional indexer is out-of-bounds" |}.

(** numpy: [a[0]] on an empty array. *)
Definition IndexError_array : exn :=
  {| exc_class := "IndexError";
     exc_msg := "index 0 is out of bounds for axis 0 with size 0" |}.

Definition KeyError : exn := {| exc_class := "KeyError"; exc_msg := EmptyString |}.

(** Numbers: the script mixes the int literals [0] and [1] with floats. *)
Inductive pynum :=
| PyInt (z : Z)
| PyFloat (f : float).

(** [float(z)]; exact for the small literals the script uses. *)
Definition float_of_int (z : Z) : float :=
  if z <? 0 then PrimFloat.opp (PrimFloat.of_uint63 (Uint63.of_Z (- z)))
  else PrimFloat.of_uint63 (Uint63.of_Z z).

Definition to_float (x : pynum) : float :=
  match x with PyInt z => float_of_int z | PyFloat f => f end.

Definition py_add (x y : pynum) : pynum :=
  match x, y with
  | PyInt a, PyInt b => PyInt (a + b)
  | _, _ => PyFloat (PrimFloat.add (to_float x) (to_float y))
  end.

Definition py_mul (x y : pynum) : pynum :=
  match x, y with
  | PyInt a, PyInt b => PyInt (a * b)
  | _, _ => PyFloat (PrimFloat.mul (to_float x) (to_float y))
  end.

(** True division always yields a float. *)
Definition py_truediv (x y : pynum) : float :=
  PrimFloat.div (to_float x) (to_float y).

(** *** The format specs [,.2f] and [.2f] *)

(** Nearest integer to [n / d] for [0 < d], ties to the even one. *)
Definition round_half_even (n d : Z) : Z :=
  let q := n / d in
  let r := n mod d in
  if 2 * r <? d then q
  else if d <? 2 * r then q + 1
  else if Z.even q then q else q + 1.

(** The magnitude [m * 2^e] in hundredths, as the fraction [n / d]. *)
Definition hundredths_frac (m : positive) (e : Z) : Z * Z :=
  if 0 <=? e then (100 * Z.pos m * 2 ^ e, 1) else (100 * Z.pos m, 2 ^ (- e)).

Definition cents (m : positive) (e : Z) : Z :=
  let '(n, d) := hundredths_frac m e in round_half_even n d.

Definition decimal (n : Z) : string :=
  NilZero.string_of_uint (N.to_uint (Z.to_N n)).

(** Thousands separators, on the reversed digits of the integer part. *)
Fixpoint group3 (rev_digits : list ascii) : list ascii :=
  match rev_digits with
  | a :: b :: c :: ((_ :: _) as rest) =>
      a :: b :: c :: ","%char :: group3 rest
  | l => l
  end.

Definition with_commas (s : string) : string :=
  string_of_list_ascii
    (rev (group3 (rev (list_ascii_of_string s)))).

Definition two_digits (n : Z) : string :=
  if n <? 10 then "0" +:+ decimal n else decimal n.

(** A non-negative amount of hundredths as [I.FF], [I] grouped on demand. *)
Definition fixed2 (grouping : bool) (c : Z) : string :=
  let int_part := decimal (c / 100) in
  (if grouping then with_commas int_part else int_part)
    +:+ "." +:+ two_digits (c mod 100).

Definition sign_str (s : bool) : string := if s then "-" else EmptyString.

Definition format_float_2f (grouping : bool) (f : float) : string :=
  match Prim2SF f with
  | S754_nan => "nan"
  | S754_infinity s => sign_str s +:+ "inf"
  | S754_zero s => sign_str s +:+ fixed2 grouping 0
  | S754_finite s m e => sign_str s +:+ fixed2 grouping (cents m e)
  end.

(** [f"{x:,.2f}"] when [grouping], [f"{x:.2f}"] otherwise; an int is
    converted to float first. *)
Definition format_2f (grouping : bool) (x : pynum) : string :=
  format_float_2f grouping (to_float x).

(** [str(z)] for an int. *)
Definition str_int (z : Z) : string :=
  if z <? 0 then "-" +:+ decimal (- z) else decimal z.

(** The exact rational value of a finite number, and the value its
    two-decimal rendering denotes. *)
Definition SF_exact (x : spec_float) : option Q :=
  match x with
  | S754_zero _ => Some 0%Q
  | S754_finite s m e =>
      let mag := if 0 <=? e then inject_Z (Z.pos m * 2 ^ e)
                 else Qmake (Z.pos m) (Z.to_pos (2 ^ (- e))) in
      Some (if s then Qopp mag else mag)
  | _ => None
  end.

Definition exact_value (x : pynum) : option Q := SF_exact (Prim2SF (to_float x)).

Definition SF_displayed (x : spec_float) : option Q :=
  match x with
  | S754_zero _ => Some 0%Q
  | S754_finite s m e =>
      let mag := Qmake (cents m e) 100 in
      Some (if s then Qopp mag else mag)
  | _ => None
  end.

Definition displayed_value (x : pynum) : option Q :=
  SF_displayed (Prim2SF (to_float x)).

End Py.
Import Py.

(** ** pandas: object cells, rows, boolean masks, order-preserving dedup *)

Module Pandas.

(** An object cell: a string, or a missing value (NaN). *)
Definition cell : Type := option string.

(** One row of the quote table; [r_power_type] is the "Power Type" column and
    [r_price] holds what [float(...)] makes of the price cell. *)
Record Row := {
  r_type : cell;
  r_supplier : cell;
  r_brand : cell;
  r_code : cell;
  r_description : cell;
  r_power_type : cell;
  r_price : float
}.

Definition DataFrame : Type := list Row.

(** [series == x]: a missing value on either side compares false. *)
Definition eq_cell (a x : cell) : bool :=
  match a, x with
  | Some s, Some t => bool_decide (s = t)
  | _, _ => false
  end.

(** [series != x] is the complement, so it is true on a missing value. *)
Definition ne_cell (a x : cell) : bool := negb (eq_cell a x).

Definition isna (a : cell) : bool :=
  match a with None => true | Some _ => false end.

Definition notna (a : cell) : bool := negb (isna a).

(** [series.isin(values)] for string values. *)
Definition isin (a : cell) (values : list string) : bool :=
  existsb (λ v, eq_cell a (Some v)) values.

(** [Series.unique()] and [DataFrame.drop_duplicates()]: scan in order and
    keep a value the first time it is seen; missing values count as one
    value. *)
Fixpoint unique_from {A : Type} `{EqDecision A} (seen l : list A) : list A :=
  match l with
  | [] => []
  | x :: l' =>
      if bool_decide (x ∈ seen) then unique_from seen l'
      else x :: unique_from (x :: seen) l'
  end.

Definition unique {A : Type} `{EqDecision A} (l : list A) : list A :=
  unique_from [] l.

(** [selection.iloc[0]] *)
Definition iloc0 {A : Type} (l : list A) : result A :=
  match l with
  | [] => Raise IndexError_iloc
  | x :: _ => Ok x
  end.

(** [array[0]] *)
Definition array0 {A : Type} (l : list A) : result A :=
  match l with
  | [] => Raise IndexError_array
  | x :: _ => Ok x
  end.

(** How an f-string prints a cell. *)
Definition str_cell (c : cell) : string := default "nan" c.

End Pandas.
Import Pandas.

(** ** The grouping both renderers start with (lines 167-187 and 297-313) *)

Module Grouping.

Definition key : Type := cell * cell.

(** [df[(df["type"] == "item") & df["Power Type"].notna() &
        (df["Power Type"] != "")]] *)
Definition is_main_item (r : Row) : bool :=
  eq_cell (r_type r) (Some "item")
  && notna (r_power_type r)
  && ne_cell (r_power_type r) (Some EmptyString).

Definition main_items (df : DataFrame) : DataFrame :=
  List.filter is_main_item df.

(** [main_items[["code", "Power Type"]].drop_duplicates().values] *)
Definition group_keys (df : DataFrame) : list key :=
  unique (map (λ r, (r_code r, r_power_type r)) (main_items df)).

Definition in_group (code power_type : cell) (r : Row) : bool :=
  eq_cell (r_code r) code
  && (eq_cell (r_power_type r) power_type
      || isna (r_power_type r)
      || eq_cell (r_power_type r) (Some EmptyString))
  && isin (r_type r) ["item"; "subitem"].

Definition items_for_code (df : DataFrame) (code power_type : cell)
  : DataFrame :=
  List.filter (in_group code power_type) df.

Definition suppliers_of (items : DataFrame) : list cell :=
  unique (map r_supplier items).

Definition descriptions_of (items : DataFrame) : list cell :=
  unique (map r_description items).

Definition is_item (r : Row) : bool := eq_cell (r_type r) (Some "item").

(** [items_for_code[items_for_code["type"] == "item"].iloc[0]["brand"]] *)
Definition brand_of (items : DataFrame) : result cell :=
  r_brand <$> iloc0 (List.filter is_item items).

Definition price_rows (items : DataFrame) (s desc : cell) : DataFrame :=
  List.filter
    (λ r, eq_cell (r_supplier r) s && eq_cell (r_description r) desc) items.

(** [float(row["price"].iloc[0]) if not row.empty else 0], where [row] is the
    selection by supplier and description; the same expression stands at
    lines 218-222, 234-238 and 352-356. *)
Definition lookup_price (items : DataFrame) (s desc : cell) : pynum :=
  match price_rows items s desc with
  | [] => PyInt 0
  | r :: _ => PyFloat (r_price r)
  end.

End Grouping.
Import Grouping.

(** ** The markup preview: [generate_html_table] *)

Module Html.

Definition nl : string := String "010"%char EmptyString.
Definition dq : string := String "034"%char EmptyString.

Definition html_head : string :=
  String.concat nl
    [ EmptyString;
      "    <div style=" +:+ dq +:+ "overflow-x:auto;" +:+ dq +:+ ">";
      "    <style>";
      "        table {";
      "            border-collapse: collapse !important;";
      "            width: 100%;";
      "            margin-bottom: 40px;";
      "            font-family: Arial, sans-serif;";
      "            background-color: #ffffff;";
      "            color: #000000;";
      "            border: 1px solid #bfbfbf;";
      "        }";
      EmptyString;
      "        th, td {";
      "            border: 1px solid #bfbfbf !important;";
      "            padding: 6px 8px;";
      "            vertical-align: middle;";
      "            text-align: left;";
      "            background-clip: padding-box;";
      "        }";
      EmptyString;
      "        th {";
      "            background-color: #dae9f8;";
      "            font-weight: 600;";
      "        }";
      EmptyString;
      "        .total-row td {";
      "            background-color: #fce4d6;";
      "            font-weight: bold;";
      "        }";
      "    </style>";
      "    " ].

(** The merged identity cell and the first item cells (lines 206-215). *)
Definition details_cells (body_rows : Z) (brand code power_type first_desc : cell)
  : string :=
  String.concat nl
    [ EmptyString;
      "            <td rowspan=" +:+ dq +:+ str_int body_rows +:+ dq +:+ ">";
      "                <b>Brand</b><br>" +:+ str_cell brand +:+ "<br><br>";
      "                <b>Code</b><br>" +:+ str_cell code +:+ "<br><br>";
      "                <b>Power Type</b><br>" +:+ str_cell power_type;
      "            </td>";
      "            <td rowspan=" +:+ dq +:+ str_int body_rows +:+ dq +:+ "></td>";
      "            <td>1</td>";
      "            <td>" +:+ str_cell first_desc +:+ "</td>";
      "        " ].

(** [totals[s]] *)
Definition getitem (totals : gmap cell pynum) (s : cell) : result pynum :=
  match totals !! s with
  | Some t => Ok t
  | None => Raise KeyError
  end.

(** The body of [for s in suppliers:] in an item row: price lookup,
    [totals[s] += price], one [<td>] (lines 217-224 and 233-240). *)
Definition price_cell (items : DataFrame) (desc : cell)
    (st : gmap cell pynum * string) (s : cell) : result (gmap cell pynum * string) :=
  let '(totals, html) := st in
  let price := lookup_price items s desc in
  t ← getitem totals s;
  Ok (<[s := py_add t price]> totals,
      html +:+ "<td>$" +:+ format_2f true price +:+ "</td>").

Definition price_cells (items : DataFrame) (desc : cell) (suppliers : list cell)
    (st : gmap cell pynum * string) : result (gmap cell pynum * string) :=
  for_each (price_cell items desc) suppliers st.

(** The body of [for desc in descriptions[1:]:] (lines 229-242). *)
Definition remaining_row (items : DataFrame) (suppliers : list cell)
    (st : gmap cell pynum * string) (desc : cell)
  : result (gmap cell pynum * string) :=
  let '(totals, html) := st in
  let html := html +:+ "<tr>" in
  let html := html +:+ "<td>1</td><td>" +:+ str_cell desc +:+ "</td>" in
  st ← price_cells items desc suppliers (totals, html);
  Ok (st.1, st.2 +:+ "</tr>").

(** From [totals = {s: 0 for s in suppliers}] to the end of the item rows
    (lines 200-242): the accumulated subtotals and the markup so far. *)
Definition item_rows (items : DataFrame) (suppliers descriptions : list cell)
    (body_rows : Z) (brand code power_type : cell) (html : string)
  : result (gmap cell pynum * string) :=
  let totals := foldl (λ d s, <[s := PyInt 0]> d) (∅ : gmap cell pynum) suppliers in
  first_desc ← array0 descriptions;
  let html := html +:+ "<tr>" in
  let html := html +:+ details_cells body_rows brand code power_type first_desc in
  st ← price_cells items first_desc suppliers (totals, html);
  let st := (st.1, st.2 +:+ "</tr>") in
  for_each (remaining_row items suppliers) (tail descriptions) st.

(** [total = totals[s] * (1 + tax_rate)] *)
Definition final_total (subtotal : pynum) (tax_rate : float) : pynum :=
  py_mul subtotal (py_add (PyInt 1) (PyFloat tax_rate)).

(** The body of [for s in suppliers:] in the total row (lines 254-256). *)
Definition total_cell (totals : gmap cell pynum) (tax_rate : float)
    (html : string) (s : cell) : result string :=
  t ← getitem totals s;
  let total := final_total t tax_rate in
  Ok (html +:+ "<td>$" +:+ format_2f true total +:+ "</td>").

Definition total_cells (totals : gmap cell pynum) (tax_rate : float)
    (suppliers : list cell) (html : string) : result string :=
  for_each (total_cell totals tax_rate) suppliers html.

(** One pass of the loop over the keys (lines 175-259). *)
Definition html_group (df : DataFrame) (tax_percent tax_rate : float)
    (html : string) (k : key) : result string :=
  let '(code, power_type) := k in
  let items := items_for_code df code power_type in
  let suppliers := suppliers_of items in
  brand ← brand_of items;
  let descriptions := descriptions_of items in
  let body_rows := Z.of_nat (length descriptions) + 2 in
  let html := html +:+ "<table>" in
  let html := html +:+ "<tr>" in
  let html := html +:+ "<th>Details</th><th></th><th>QTY</th><th>Items</th>" in
  let html :=
    foldl (λ html s, html +:+ "<th>" +:+ str_cell s +:+ "</th>") html suppliers in
  let html := html +:+ "</tr>" in
  st ← item_rows items suppliers descriptions body_rows brand code power_type html;
  let '(totals, html) := st in
  let html := html +:+ "<tr>" in
  let html := html +:+ "<td></td><td><b>Tax</b></td>" in
  let html :=
    foldl (λ html _, html +:+ "<td>" +:+ format_float_2f false tax_percent +:+ "%</td>")
      html suppliers in
  let html := html +:+ "</tr>" in
  let html := html +:+ "<tr class='total-row'>" in
  let html := html +:+ "<td></td><td>Total</td>" in
  html ← total_cells totals tax_rate suppliers html;
  let html := html +:+ "</tr>" in
  Ok (html +:+ "</table>").

Definition generate_html_table (df : DataFrame) (tax_percent : float)
  : result string :=
  let tax_rate := py_truediv (PyFloat tax_percent) (PyInt 100) in
  html ← for_each (html_group df tax_percent tax_rate) (group_keys df) html_head;
  Ok (html +:+ "</div>").

End Html.
Import Html.

(** ** The workbook export: the "Generate Excel File" handler *)

Module Xlsx.

(** A formula, kept as syntax.  The handler writes it as text:
    [f"={qty_letter}{row}*{price}"] is [EMul (ERef 5 row) (ENum price)] (the
    quantity column [get_column_letter(5)] is "E"), and
    [f"=SUM({c}{first}:{c}{last})*(1+{c}{tax_row})"] is
    [EMul (ESum c first last) (EAdd (ENum 1) (ERef c tax_row))]. *)
Inductive expr :=
| ERef (column row : Z)
| ENum (x : pynum)
| ESum (column first_row last_row : Z)
| EMul (a b : expr)
| EAdd (a b : expr).

Inductive value :=
| VText (c : cell)
| VNum (x : pynum)
| VFormula (e : expr).

Inductive number_format :=
| FORMAT_GENERAL
| FORMAT_CURRENCY_USD_SIMPLE
| FORMAT_PERCENTAGE_00.

(** [PatternFill] with colour DAE9F8, and with colour FCE4D6. *)
Inductive fill := header_fill | total_fill.

(** [Border(top, bottom, left, right)]: [true] is [thin_side]. *)
Record Border := {
  b_top : bool; b_bottom : bool; b_left : bool; b_right : bool
}.

Record Cell := {
  c_value : option value;
  c_number_format : number_format;
  c_fill : option fill;
  c_border : option Border
}.

Definition blank : Cell :=
  {| c_value := None; c_number_format := FORMAT_GENERAL;
     c_fill := None; c_border := None |}.

(** What one statement does to the cell [ws.cell(row, column)] returns. *)
Inductive write :=
| SetValue (v : value)
| SetNumberFormat (f : number_format)
| SetFill (f : fill)
| SetBorder (b : Border).

Definition op : Type := Z * Z * write.

Definition apply_write (w : write) (c : Cell) : Cell :=
  match w with
  | SetValue v =>
      {| c_value := Some v; c_number_format := c_number_format c;
         c_fill := c_fill c; c_border := c_border c |}
  | SetNumberFormat f =>
      {| c_value := c_value c; c_number_format := f;
         c_fill := c_fill c; c_border := c_border c |}
  | SetFill f =>
      {| c_value := c_value c; c_number_format := c_number_format c;
         c_fill := Some f; c_border := c_border c |}
  | SetBorder b =>
      {| c_value := c_value c; c_number_format := c_number_format c;
         c_fill := c_fill c; c_border := Some b |}
  end.

(** [ws.cell(row=r, column=c)] creates the cell when the sheet has none. *)
Definition ws_cell (ws : gmap (Z * Z) Cell) (o : op) : gmap (Z * Z) Cell :=
  let '(r, c, w) := o in
  <[(r, c) := apply_write w (default blank (ws !! (r, c)))]> ws.

Definition run_writes (ops : list op) (ws : gmap (Z * Z) Cell)
  : gmap (Z * Z) Cell :=
  foldl ws_cell ws ops.

Definition start_row_offset : Z := 1.
Definition start_col_offset : Z := 1.

Definition len {A : Type} (l : list A) : Z := Z.of_nat (length l).

(** [range(a, b)] *)
Definition range (a b : Z) : list Z := seqZ a (b - a).

(** [2 if "subitem" not in items_for_code["type"].values else 0] *)
Definition extra_rows (items : DataFrame) : Z :=
  if existsb (λ r, eq_cell (r_type r) (Some "subitem")) items then 0 else 2.

Definition header_row_of (current_row : Z) : Z :=
  current_row + start_row_offset.

Definition tax_row_of (items : DataFrame) (descriptions : list cell)
    (current_row : Z) : Z :=
  let data_row := current_row + 1 in
  data_row + len descriptions + extra_rows items + start_row_offset.

Definition total_row_of (items : DataFrame) (descriptions : list cell)
    (current_row : Z) : Z :=
  tax_row_of items descriptions current_row + 1.

(** Lines 318-332: the header labels, the supplier names, the header fill. *)
Definition header_writes (suppliers : list cell) (start_row : Z) : list op :=
  let r := start_row + start_row_offset in
  [ (r, 1 + start_col_offset, SetValue (VText (Some "Details")));
    (r, 3 + start_col_offset, SetValue (VText (Some "Image")));
    (r, 4 + start_col_offset, SetValue (VText (Some "QTY")));
    (r, 5 + start_col_offset, SetValue (VText (Some "Items"))) ]
  ++ imap (λ i supplier,
             (r, 6 + Z.of_nat i + start_col_offset, SetValue (VText supplier)))
       suppliers
  ++ (let last_header_col := 5 + len suppliers + start_col_offset in
      map (λ col, (r, col, SetFill header_fill))
        (range (1 + start_col_offset) (last_header_col + 1))).

(** Lines 334-341: Brand, Code and Power Type, label and value. *)
Definition identity_writes (brand code power_type : cell) (data_row : Z)
  : list op :=
  [ (data_row + start_row_offset, 1 + start_col_offset,
      SetValue (VText (Some "Brand")));
    (data_row + start_row_offset, 2 + start_col_offset, SetValue (VText brand));
    (data_row + 1 + start_row_offset, 1 + start_col_offset,
      SetValue (VText (Some "Code")));
    (data_row + 1 + start_row_offset, 2 + start_col_offset, SetValue (VText code));
    (data_row + 2 + start_row_offset, 1 + start_col_offset,
      SetValue (VText (Some "Power Type")));
    (data_row + 2 + start_row_offset, 2 + start_col_offset,
      SetValue (VText power_type)) ].

(** Lines 343-358: one sheet row per description. *)
Definition line_writes (items : DataFrame) (suppliers : list cell)
    (data_row : Z) (i_desc : nat) (desc : cell) : list op :=
  let row := data_row + Z.of_nat i_desc + start_row_offset in
  let qty_column := 4 + start_col_offset in
  [ (row, 4 + start_col_offset, SetValue (VNum (PyInt 1)));
    (row, 5 + start_col_offset, SetValue (VText desc)) ]
  ++ concat
       (imap (λ i supplier,
                let col_idx := 6 + Z.of_nat i + start_col_offset in
                let price := lookup_price items supplier desc in
                [ (row, col_idx,
                    SetValue (VFormula (EMul (ERef qty_column row) (ENum price))));
                  (row, col_idx, SetNumberFormat FORMAT_CURRENCY_USD_SIMPLE) ])
          suppliers).

(** Lines 362-368: the tax row. *)
Definition tax_writes (suppliers : list cell) (tax_rate : float) (tax_row : Z)
  : list op :=
  (tax_row, 5 + start_col_offset, SetValue (VText (Some "Tax")))
  :: concat
       (map (λ i,
               let col_idx := 6 + i + start_col_offset in
               [ (tax_row, col_idx, SetValue (VNum (PyFloat tax_rate)));
                 (tax_row, col_idx, SetNumberFormat FORMAT_PERCENTAGE_00) ])
          (range 0 (len suppliers))).

(** Lines 370-385: the total row. *)
Definition total_writes (suppliers : list cell)
    (first_item_row last_item_row tax_row total_row : Z) : list op :=
  [ (total_row, 5 + start_col_offset, SetValue (VText (Some "Total")));
    (total_row, 5 + start_col_offset, SetFill total_fill) ]
  ++ concat
       (map (λ i,
               let col_idx := 6 + i + start_col_offset in
               [ (total_row, col_idx,
                   SetValue
                     (VFormula
                        (EMul (ESum col_idx first_item_row last_item_row)
                           (EAdd (ENum (PyInt 1)) (ERef col_idx tax_row)))));
                 (total_row, col_idx, SetNumberFormat FORMAT_CURRENCY_USD_SIMPLE);
                 (total_row, col_idx, SetFill total_fill) ])
          (range 0 (len suppliers))).

(** Lines 387-399: the outline of the block. *)
Definition border_writes (first_row last_row first_col last_col : Z) : list op :=
  concat
    (map (λ r,
            map (λ c,
                   (r, c,
                    SetBorder
                      {| b_top := bool_decide (r = first_row);
                         b_bottom := bool_decide (r = last_row);
                         b_left := bool_decide (c = first_col);
                         b_right := bool_decide (c = last_col) |}))
              (range first_col (last_col + 1)))
       (range first_row (last_row + 1))).

(** Every cell statement of one pass of the loop, in program order. *)
Definition group_writes (items : DataFrame) (suppliers descriptions : list cell)
    (brand code power_type : cell) (tax_rate : float) (current_row : Z)
  : list op :=
  let start_row := current_row in
  let data_row := start_row + 1 in
  let tax_row := tax_row_of items descriptions current_row in
  let total_row := tax_row + 1 in
  let first_item_row := data_row + start_row_offset in
  let last_item_row := tax_row - 1 in
  header_writes suppliers start_row
  ++ identity_writes brand code power_type data_row
  ++ concat (imap (line_writes items suppliers data_row) descriptions)
  ++ tax_writes suppliers tax_rate tax_row
  ++ total_writes suppliers first_item_row last_item_row tax_row total_row
  ++ border_writes (start_row + start_row_offset) total_row
       (1 + start_col_offset) (5 + len suppliers + start_col_offset).

(** One pass of the loop over the keys (lines 299-401): the sheet and
    [current_row] before, the sheet and [current_row] after. *)
Definition xlsx_group (df : DataFrame) (tax_rate : float)
    (st : gmap (Z * Z) Cell * Z) (k : key) : result (gmap (Z * Z) Cell * Z) :=
  let '(ws, current_row) := st in
  let '(code, power_type) := k in
  let items := items_for_code df code power_type in
  let suppliers := suppliers_of items in
  brand ← brand_of items;
  let descriptions := descriptions_of items in
  let ws :=
    run_writes
      (group_writes items suppliers descriptions brand code power_type
         tax_rate current_row) ws in
  let total_row := total_row_of items descriptions current_row in
  Ok (ws, total_row + 3).

(** The sheet "Items Summary" the handler saves. *)
Definition generate_excel_file (df : DataFrame) (tax_percent : float)
  : result (gmap (Z * Z) Cell) :=
  let tax_rate := py_truediv (PyFloat tax_percent) (PyInt 100) in
  fst <$> for_each (xlsx_group df tax_rate) (group_keys df) (∅, 1).

Definition value_at (ws : gmap (Z * Z) Cell) (r c : Z) : option value :=
  ws !! (r, c) ≫= c_value.

Definition row_is_blank (ws : gmap (Z * Z) Cell) (r : Z) : Prop :=
  ∀ c, ws !! (r, c) = None.

End Xlsx.
Import Xlsx.

(** ** Session state, the live preview, the PDF upload section *)

Module App.

Record session_state := {
  df : option DataFrame;
  current_job_path : option string;
  job_loaded_from_queue : bool
}.



Record UploadedFile := { name : string; content : string }.

Record Response := { status_code : Z; csv : string }.

(** What the PDF section does that the outside can see, in order. *)
Inductive effect :=
| st_warning (msg : string)
| requests_post (url : string) (files : list (string * string)) (timeout : Z)
| st_error (msg : string)
| st_stop
| st_success (msg : string)
| st_rerun.

Section PdfUpload.

Variable POWER_AUTOMATE_URL : string.
(** [base64.b64encode(...).decode("utf-8")] *)
Variable b64encode : string → string.
(** Decoding the reply, [pd.read_csv], and stripping the text columns. *)
Variable load_csv : string → DataFrame.
(** The external service: the reply to a posted payload. *)
Variable power_automate : list (string * string) → Response.

(** Lines 40-79.  [clicked] is what [st.button] returns when it is drawn. *)
Definition pdf_section (pdfs : list UploadedFile) (clicked : bool)
    (ss : session_state) : list effect * session_state :=
  let is_uploaded := negb (bool_decide (pdfs = [])) in
  let warned :=
    if is_uploaded && negb (len pdfs =? 3)
    then [st_warning "Please upload exactly 3 PDF files."] else [] in
  if is_uploaded && (len pdfs =? 3) then
    if clicked then
      let files_payload := map (λ pdf, (name pdf, b64encode (content pdf))) pdfs in
      let response := power_automate files_payload in
      let sent := warned ++ [requests_post POWER_AUTOMATE_URL files_payload 180] in
      if negb (status_code response =? 200) then
        (sent ++ [st_error "Power Automate failed to process PDFs"; st_stop], ss)
      else
        (sent ++ [st_success "✅ CSV generated from PDFs and loaded"; st_rerun],
         {| df := Some (load_csv (csv response));
            current_job_path := None;
            job_loaded_from_queue := false |})
    else (warned, ss)
  else (warned, ss).

Definition is_post (e : effect) : bool :=
  match e with requests_post _ _ _ => true | _ => false end.

Definition is_warning (e : effect) : bool :=
  match e with st_warning _ => true | _ => false end.

End PdfUpload.

End App.
Import App.

(** ** Vocabulary of the statements *)

Module Layout.

(** Position of the first occurrence of [x] in [l]. *)
Fixpoint first_index {A : Type} `{EqDecision A} (x : A) (l : list A)
  : option nat :=
  match l with
  | [] => None
  | y :: l' => if decide (x = y) then Some 0%nat else S <$> first_index x l'
  end.

(** [u] lists the distinct values of [l], each once, in the order in which
    they first occur in [l]. *)
Definition first_occurrence_order {A : Type} `{EqDecision A} (l u : list A)
  : Prop :=
  NoDup u
  ∧ (∀ x, x ∈ u ↔ x ∈ l)
  ∧ ∀ i j x y, u !! i = Some x → u !! j = Some y → (i < j)%nat →
      ∃ a b, first_index x l = Some a ∧ first_index y l = Some b ∧ (a < b)%nat.

(** Both cells hold the same string: what [==] on two cells tests. *)
Definition same (a x : cell) : Prop := ∃ s, a = Some s ∧ x = Some s.

(** Missing or empty. *)
Definition blank (a : cell) : Prop := a = None ∨ a = Some EmptyString.

Definition key_of (r : Row) : key := (r_code r, r_power_type r).

Definition item_or_subitem (r : Row) : Prop :=
  r_type r = Some "item" ∨ r_type r = Some "subitem".


(** The dict holds [acc s] under every supplier [s] of the list. *)
Definition holds (totals : gmap cell pynum) (suppliers : list cell)
    (acc : cell → pynum) : Prop :=
  ∀ s, s ∈ suppliers → totals !! s = Some (acc s).

Definition join (l : list string) : string :=
  foldr String.append EmptyString l.

(** Left-to-right sum of one supplier's prices over the descriptions,
    starting from the int [0] the dict is initialised with. *)
Definition subtotal (items : DataFrame) (descriptions : list cell) (s : cell)
  : pynum :=
  foldl (λ acc d, py_add acc (lookup_price items s d)) (PyInt 0) descriptions.

Definition price_td (p : pynum) : string :=
  "<td>$" +:+ format_2f true p +:+ "</td>".

Definition price_tds (items : DataFrame) (suppliers : list cell) (desc : cell)
  : string :=
  join (map (λ s, price_td (lookup_price items s desc)) suppliers).

Definition row_markup (items : DataFrame) (suppliers : list cell) (desc : cell)
  : string :=
  "<tr>" +:+ ("<td>1</td><td>" +:+ str_cell desc +:+ "</td>")
  +:+ price_tds items suppliers desc +:+ "</tr>".

Definition first_brand (items : DataFrame) : cell :=
  match List.filter is_item items with
  | r :: _ => r_brand r
  | [] => None
  end.

(** The markup of one group, piece by piece in emission order. *)
Definition table_markup (df : DataFrame) (tax_percent tax_rate : float)
    (k : key) : string :=
  let items := items_for_code df k.1 k.2 in
  let suppliers := suppliers_of items in
  let descriptions := descriptions_of items in
  let body_rows := Z.of_nat (length descriptions) + 2 in
  "<table>"
  +:+ "<tr>"
  +:+ "<th>Details</th><th></th><th>QTY</th><th>Items</th>"
  +:+ join (map (λ s, "<th>" +:+ str_cell s +:+ "</th>") suppliers)
  +:+ "</tr>"
  +:+ "<tr>"
  +:+ details_cells body_rows (first_brand items) k.1 k.2
        (default None (head descriptions))
  +:+ price_tds items suppliers (default None (head descriptions))
  +:+ "</tr>"
  +:+ join (map (row_markup items suppliers) (tail descriptions))
  +:+ "<tr>"
  +:+ "<td></td><td><b>Tax</b></td>"
  +:+ join (map (λ _ : cell, "<td>" +:+ format_float_2f false tax_percent +:+ "%</td>")
            suppliers)
  +:+ "</tr>"
  +:+ "<tr class='total-row'>"
  +:+ "<td></td><td>Total</td>"
  +:+ join (map (λ s, price_td (final_total (subtotal items descriptions s) tax_rate))
            suppliers)
  +:+ "</tr>"
  +:+ "</table>".

(** [current_row] after one more group, and after a run of groups. *)
Definition next_row (df : DataFrame) (current_row : Z) (k : key) : Z :=
  let items := items_for_code df k.1 k.2 in
  total_row_of items (descriptions_of items) current_row + 3.

Definition row_after (df : DataFrame) (ks : list key) (current_row : Z) : Z :=
  foldl (next_row df) current_row ks.

(** After row [t] come exactly [n] blank rows. *)
Definition gap_after (ws : gmap (Z * Z) Cell) (t n : Z) : Prop :=
  (∀ r, t < r ≤ t + n → row_is_blank ws r) ∧ ¬ row_is_blank ws (t + n + 1).

End Layout.
Import Layout.

(** ** Sample tables *)

Module Samples.

Definition quote (t s b c d p : cell) (x : float) : Row :=
  {| r_type := t; r_supplier := s; r_brand := b; r_code := c;
     r_description := d; r_power_type := p; r_price := x |}.

(** Suppliers A and B, descriptions X and Y, one group. *)
Definition two_by_two : DataFrame :=
  [ quote (Some "item") (Some "A") (Some "Acme") (Some "K1") (Some "X") (Some "220V") 10;
    quote (Some "item") (Some "A") (Some "Acme") (Some "K1") (Some "Y") (Some "220V") 20;
    quote (Some "item") (Some "B") (Some "Acme") (Some "K1") (Some "X") (Some "220V") 15;
    quote (Some "item") (Some "B") (Some "Acme") (Some "K1") (Some "Y") (Some "220V") 5 ].

(** Two groups, the second with a subitem that has no Power Type. *)
Definition two_groups : DataFrame :=
  [ quote (Some "item") (Some "A") (Some "Acme") (Some "K1") (Some "X") (Some "220V") 10;
    quote (Some "item") (Some "B") (Some "Acme") (Some "K1") (Some "X") (Some "220V") 15;
    quote (Some "item") (Some "A") (Some "Bolt") (Some "K2") (Some "Y") (Some "110V") 7;
    quote (Some "subitem") (Some "A") None (Some "K2") (Some "Z") None 0.125 ].

(** An item row whose code cell is still empty. *)
Definition no_code : DataFrame :=
  [ quote (Some "item") (Some "A") (Some "Acme") None (Some "X") (Some "220V") 10 ].

(** One price with three decimals. *)
Definition eighth : DataFrame :=
  [ quote (Some "item") (Some "A") (Some "Acme") (Some "K1") (Some "X") (Some "220V") 0.125 ].

End Samples.
Import Samples.

(** ** Reading a finished sheet *)

Module Reading.

(** The cell [ws.cell(row=r, column=c)] hands out. *)
Definition cell_at (ws : gmap (Z * Z) Cell) (r c : Z) : Cell :=
  default Xlsx.blank (ws !! (r, c)).

Definition fill_at (ws : gmap (Z * Z) Cell) (r c : Z) : option fill :=
  c_fill (cell_at ws r c).

Definition border_at (ws : gmap (Z * Z) Cell) (r c : Z) : option Border :=
  c_border (cell_at ws r c).

Definition format_at (ws : gmap (Z * Z) Cell) (r c : Z) : number_format :=
  c_number_format (cell_at ws r c).

(** The field a statement assigns, if it assigns that field. *)
Definition sets_value (w : write) : option (option value) :=
  match w with SetValue v => Some (Some v) | _ => None end.

Definition sets_fill (w : write) : option (option fill) :=
  match w with SetFill f => Some (Some f) | _ => None end.

Definition sets_border (w : write) : option (option Border) :=
  match w with SetBorder b => Some (Some b) | _ => None end.

Definition sets_format (w : write) : option number_format :=
  match w with SetNumberFormat f => Some f | _ => None end.

(** The rectangle of a block that starts at [cur]: rows from the header row to
    the total row, columns from "Details" to the last supplier. *)
Definition in_block (items : DataFrame) (cur r c : Z) : Prop :=
  cur + 1 ≤ r ≤ total_row_of items (descriptions_of items) cur
  ∧ 2 ≤ c ≤ 6 + len (suppliers_of items).

(** A supplier column of the block. *)
Definition supplier_column (items : DataFrame) (c : Z) : Prop :=
  7 ≤ c ≤ 6 + len (suppliers_of items).

(** A row that holds a description of the block. *)
Definition line_row (items : DataFrame) (cur r : Z) : Prop :=
  cur + 2 ≤ r ≤ cur + 1 + len (descriptions_of items).

(** [df["type"].isin(["item", "subitem"])]: the rows a group can hold. *)
Definition counted (r : Row) : bool := isin (r_type r) ["item"; "subitem"].

(** The rows of a table that give a key or belong to the group of a key. *)
Definition used (d : DataFrame) (r : Row) : bool :=
  is_main_item r || existsb (λ k : key, in_group k.1 k.2 r) (group_keys d).

(** The border a cell of a block is given: thin on the edges of the block. *)
Definition outline (first_row last_row first_col last_col r c : Z) : Border :=
  {| b_top := bool_decide (r = first_row);
     b_bottom := bool_decide (r = last_row);
     b_left := bool_decide (c = first_col);
     b_right := bool_decide (c = last_col) |}.

Definition is_value (w : write) : Prop := ∃ v, w = SetValue v.


End Reading.
Import Reading.

(** ** Loading a table by hand, and the export button *)

Module Load.




Section Normalize.

(** [str.strip] *)
Variable strip : string → string.
(** What [astype(str)] makes of a missing value: the text "nan" where pandas
    prints missing values, a missing value where it keeps them. *)
Variable na : cell.

(** [df[col].astype(str).str.strip()], on one cell. *)
Definition clean (c : cell) : cell :=
  strip <$> (match c with Some s => Some s | None => na end).

(** Lines 96-98 (and 70-72): the six text columns are cleaned, the price
    column is left alone. *)
Definition normalize_row (r : Row) : Row :=
  {| r_type := clean (r_type r);
     r_supplier := clean (r_supplier r);
     r_brand := clean (r_brand r);
     r_code := clean (r_code r);
     r_description := clean (r_description r);
     r_power_type := clean (r_power_type r);
     r_price := r_price r |}.

Definition normalize (d : DataFrame) : DataFrame := map normalize_row d.

(** [pd.read_csv] and [pd.read_excel] on the content of the file. *)
Variable read_csv : string → DataFrame.
Variable read_excel : string → DataFrame.


End Normalize.

End Load.
Import Load.

(** ** More sample tables *)

Module MoreSamples.




(** One description and a subitem: the tax row directly follows. *)
Definition with_subitem : DataFrame :=
  [ quote (Some "item") (Some "A") (Some "Acme") (Some "K1") (Some "X") (Some "220V") 10;
    quote (Some "subitem") (Some "A") None (Some "K1") (Some "X") None 2 ].

(** A subitem whose Power Type no item row of its code carries. *)
Definition with_orphan : DataFrame :=
  [ quote (Some "item") (Some "A") (Some "Acme") (Some "K1") (Some "X") (Some "220V") 10;
    quote (Some "subitem") (Some "A") None (Some "K1") (Some "Z") (Some "110V") 2 ].


End MoreSamples.
Import MoreSamples.

(** * Properties *)

(** ** Strings and loops *)

Lemma append_assoc (a b c : string) : (a +:+ b) +:+ c = a +:+ (b +:+ c).
Proof.
  induction a as [|ch a IH]; [reflexivity |].
  change (String ch ((a +:+ b) +:+ c) = String ch (a +:+ (b +:+ c))).
  congruence.
Qed.

Lemma append_empty_r (a : string) : a +:+ EmptyString = a.
Proof.
  induction a as [|ch a IH]; [reflexivity |].
  change (String ch (a +:+ EmptyString) = String ch a). congruence.
Qed.

Lemma foldl_append {A : Type} (f : A → string) (l : list A) (h : string) :
  foldl (λ h x, h +:+ f x) h l = h +:+ join (map f l).
Proof.
  revert h. induction l as [|x l IH]; intros h; simpl.
  - now rewrite append_empty_r.
  - rewrite IH. apply append_assoc.
Qed.

(** ** Order-preserving dedup *)

Section Unique.

Context {A : Type} `{EqDecision A}.
Implicit Types (l seen u : list A) (x y : A).

Lemma elem_of_unique_from seen l x :
  x ∈ unique_from seen l ↔ x ∈ l ∧ x ∉ seen.
Proof.
  revert seen. induction l as [|a l IH]; intros seen; simpl.
  - rewrite !elem_of_nil. tauto.
  - case_bool_decide as Ha.
    + rewrite IH, elem_of_cons. split; [tauto |].
      intros [[-> | Hl] Hs]; tauto.
    + rewrite !elem_of_cons, IH, elem_of_cons. split.
      * intros [-> | [Hl Hs]]; tauto.
      * intros [[-> | Hl] Hs]; [tauto |].
        destruct (decide (x = a)) as [-> | Hne]; tauto.
Qed.

Lemma NoDup_unique_from seen l : NoDup (unique_from seen l).
Proof.
  revert seen. induction l as [|a l IH]; intros seen; simpl.
  - constructor.
  - case_bool_decide as Ha; [apply IH |].
    constructor; [| apply IH].
    rewrite elem_of_unique_from, elem_of_cons. tauto.
Qed.

Lemma first_index_elem x l : x ∈ l → ∃ a, first_index x l = Some a.
Proof.
  induction l as [|y l IH]; [now rewrite elem_of_nil |].
  rewrite elem_of_cons. intros Hx. simpl.
  destruct (decide (x = y)) as [-> | Hne]; [eauto |].
  destruct IH as [a ->]; [tauto | simpl; eauto].
Qed.

Lemma unique_from_order seen l i j x y :
  unique_from seen l !! i = Some x →
  unique_from seen l !! j = Some y →
  (i < j)%nat →
  ∃ a b, first_index x l = Some a ∧ first_index y l = Some b ∧ (a < b)%nat.
Proof.
  revert seen i j. induction l as [|z l IH]; intros seen i j; simpl.
  - now rewrite lookup_nil.
  - case_bool_decide as Hz.
    + intros Hi Hj Hij.
      destruct (IH _ _ _ Hi Hj Hij) as (a & b & Ha & Hb & Hab).
      apply list_elem_of_lookup_2, elem_of_unique_from in Hi, Hj.
      destruct (decide (x = z)) as [-> | _]; [tauto |].
      destruct (decide (y = z)) as [-> | _]; [tauto |].
      rewrite Ha, Hb. simpl. exists (S a), (S b). split_and!; [done | done | lia].
    + intros Hi Hj Hij. destruct j as [|j]; [lia |]. simpl in Hj.
      pose proof (list_elem_of_lookup_2 _ _ _ Hj) as Hy.
      apply elem_of_unique_from in Hy. rewrite elem_of_cons in Hy.
      destruct (decide (y = z)) as [-> | _]; [tauto |].
      destruct i as [|i]; simpl in Hi.
      * injection Hi as <-. rewrite decide_True by done.
        destruct (first_index_elem y l) as [b ->]; [tauto |].
        simpl. exists 0%nat, (S b). split_and!; [done | done | lia].
      * pose proof (list_elem_of_lookup_2 _ _ _ Hi) as Hx.
        apply elem_of_unique_from in Hx. rewrite elem_of_cons in Hx.
        destruct (decide (x = z)) as [-> | _]; [tauto |].
        destruct (IH _ _ _ Hi Hj) as (a & b & -> & -> & Hab); [lia |].
        simpl. exists (S a), (S b). split_and!; [done | done | lia].
Qed.

Lemma unique_first_occurrence l : first_occurrence_order l (unique l).
Proof.
  unfold first_occurrence_order, unique. split_and!.
  - apply NoDup_unique_from.
  - intros x. rewrite elem_of_unique_from, elem_of_nil. tauto.
  - intros i j x y. apply unique_from_order.
Qed.

Lemma unique_nil_inv l : unique l = [] → l = [].
Proof.
  destruct l as [|a l]; [done |]. unfold unique. cbn. done.
Qed.

End Unique.

(** ** The format spec on some numbers *)

Example format_thousands : format_2f true (PyFloat 1234.56) = "1,234.56".
Proof. vm_compute. reflexivity. Qed.

Example format_tie_to_even : format_2f true (PyFloat 0.125) = "0.12".
Proof. vm_compute. reflexivity. Qed.

Example format_binary_below_tie : format_2f true (PyFloat 2.675) = "2.67".
Proof. vm_compute. reflexivity. Qed.

Example format_int_zero : format_2f true (PyInt 0) = "0.00".
Proof. vm_compute. reflexivity. Qed.

Example format_negative_zero : format_2f true (PyFloat (-0.001)) = "-0.00".
Proof. vm_compute. reflexivity. Qed.

Example format_percent : format_float_2f false 12 = "12.00".
Proof. vm_compute. reflexivity. Qed.

Example product_is_not_exact :
  final_total (PyFloat 20) (py_truediv (PyFloat 12) (PyInt 100))
  = PyFloat 22.400000000000002.
Proof. vm_compute. reflexivity. Qed.

(** ** Masks, keys, groups *)

Lemma eq_cell_true (a x : cell) : eq_cell a x = true ↔ same a x.
Proof.
  unfold same. destruct a as [s|], x as [t|]; simpl;
    rewrite ?bool_decide_eq_true; split;
    try (intros (? & ? & ?)); try discriminate; try naive_solver.
Qed.

Lemma eq_cell_false (a x : cell) : eq_cell a x = false ↔ ¬ same a x.
Proof. rewrite <- eq_cell_true. destruct (eq_cell a x); naive_solver. Qed.

Lemma not_blank_iff (a : cell) :
  notna a && ne_cell a (Some EmptyString) = true ↔ ¬ blank a.
Proof.
  unfold blank, ne_cell. destruct a as [s|]; simpl.
  - rewrite negb_true_iff, bool_decide_eq_false. naive_solver.
  - naive_solver.
Qed.

Lemma blank_iff (a : cell) :
  isna a || eq_cell a (Some EmptyString) = true ↔ blank a.
Proof.
  unfold blank. destruct a as [s|]; simpl.
  - rewrite bool_decide_eq_true. naive_solver.
  - naive_solver.
Qed.

Lemma is_item_iff (r : Row) : is_item r = true ↔ r_type r = Some "item".
Proof. unfold is_item. rewrite eq_cell_true. unfold same. naive_solver. Qed.

Lemma isin_item_subitem (r : Row) :
  isin (r_type r) ["item"; "subitem"] = true ↔ item_or_subitem r.
Proof.
  unfold isin, item_or_subitem. simpl.
  rewrite !orb_true_iff, !eq_cell_true. unfold same. naive_solver.
Qed.

Lemma is_main_item_iff (r : Row) :
  is_main_item r = true ↔ r_type r = Some "item" ∧ ¬ blank (r_power_type r).
Proof.
  unfold is_main_item. rewrite <- andb_assoc, andb_true_iff.
  rewrite not_blank_iff. fold (is_item r). rewrite is_item_iff. tauto.
Qed.

Lemma in_group_iff (code power_type : cell) (r : Row) :
  in_group code power_type r = true ↔
  same (r_code r) code
  ∧ (same (r_power_type r) power_type ∨ blank (r_power_type r))
  ∧ item_or_subitem r.
Proof.
  unfold in_group.
  rewrite !andb_true_iff, <- orb_assoc, orb_true_iff.
  rewrite blank_iff, !eq_cell_true, isin_item_subitem. tauto.
Qed.

Lemma elem_of_filter_bool {A : Type} (f : A → bool) (l : list A) (x : A) :
  x ∈ List.filter f l ↔ x ∈ l ∧ f x = true.
Proof. rewrite !list_elem_of_In. apply filter_In. Qed.

Lemma elem_of_map {A B : Type} (f : A → B) (l : list A) (y : B) :
  y ∈ map f l ↔ ∃ x, x ∈ l ∧ y = f x.
Proof.
  rewrite list_elem_of_In, in_map_iff.
  split; intros (x & H1 & H2); exists x; rewrite ?list_elem_of_In in *; auto.
Qed.

Lemma elem_of_group_keys (df : DataFrame) (k : key) :
  k ∈ group_keys df ↔
  ∃ r, r ∈ df ∧ r_type r = Some "item" ∧ ¬ blank (r_power_type r) ∧ k = key_of r.
Proof.
  unfold group_keys, unique, main_items.
  rewrite elem_of_unique_from, elem_of_map.
  split.
  - intros [(r & Hr & ->) _]. apply elem_of_filter_bool in Hr as [Hr Hm].
    apply is_main_item_iff in Hm. exists r. unfold key_of. tauto.
  - intros (r & Hr & Ht & Hp & ->). split; [| apply not_elem_of_nil].
    exists r. split; [| done]. apply elem_of_filter_bool.
    split; [done |]. apply is_main_item_iff. tauto.
Qed.

Lemma elem_of_items_for_code (df : DataFrame) (code power_type : cell) (r : Row) :
  r ∈ items_for_code df code power_type ↔
  r ∈ df
  ∧ same (r_code r) code
  ∧ (same (r_power_type r) power_type ∨ blank (r_power_type r))
  ∧ item_or_subitem r.
Proof.
  unfold items_for_code. rewrite elem_of_filter_bool, in_group_iff. tauto.
Qed.



Lemma brand_of_no_item (items : DataFrame) :
  List.filter is_item items = [] → brand_of items = Raise IndexError_iloc.
Proof. unfold brand_of. now intros ->. Qed.

Lemma brand_of_first_brand (items : DataFrame) (b : cell) :
  brand_of items = Ok b → b = first_brand items ∧ items ≠ [].
Proof.
  unfold brand_of, first_brand.
  destruct items as [|r items]; [discriminate |].
  destruct (List.filter is_item (r :: items)); simpl; [discriminate |].
  intros [= <-]. done.
Qed.

(** ** The price lookup *)




(** ** The markup loops *)

Lemma bind_Ok {A B : Type} (a : A) (f : A → result B) : (Ok a ≫= f) = f a.
Proof. reflexivity. Qed.

Lemma bind_Raise {A B : Type} (e : exn) (f : A → result B) :
  (Raise e ≫= f) = Raise e.
Proof. reflexivity. Qed.

Lemma init_totals (suppliers : list cell) :
  holds (foldl (λ d s, <[s := PyInt 0]> d) (∅ : gmap cell pynum) suppliers)
    suppliers (λ _, PyInt 0).
Proof.
  assert (H : ∀ (l : list cell) (d : gmap cell pynum) s,
             s ∈ l ∨ d !! s = Some (PyInt 0) →
             foldl (λ d s, <[s := PyInt 0]> d) d l !! s = Some (PyInt 0)).
  { induction l as [|x l IH]; intros d s; simpl.
    - rewrite elem_of_nil. tauto.
    - rewrite elem_of_cons. intros Hs. apply IH.
      destruct (decide (s = x)) as [-> | Hne].
      + right. apply lookup_insert_eq.
      + rewrite lookup_insert_ne by done. tauto. }
  intros s Hs. apply H. by left.
Qed.

Lemma price_cells_spec (items : DataFrame) (desc : cell) (l : list cell) :
  NoDup l →
  ∀ totals html acc, holds totals l acc →
  ∃ totals',
    price_cells items desc l (totals, html)
    = Ok (totals', html +:+ price_tds items l desc)
    ∧ holds totals' l (λ s, py_add (acc s) (lookup_price items s desc))
    ∧ ∀ s, s ∉ l → totals' !! s = totals !! s.
Proof.
  unfold price_cells, price_tds.
  induction 1 as [|x l Hx Hnd IH]; intros totals html acc Hacc.
  - exists totals. simpl. rewrite append_empty_r.
    split_and!; [done | | done]. intros s Hs. by apply elem_of_nil in Hs.
  - simpl. unfold getitem. rewrite (Hacc x) by left. rewrite !bind_Ok.
    destruct (IH (<[x := py_add (acc x) (lookup_price items x desc)]> totals)
                (html +:+ "<td>$" +:+ format_2f true (lookup_price items x desc)
                   +:+ "</td>") acc) as (totals' & Hrun & Hin & Hout).
    { intros s Hs. rewrite lookup_insert_ne by (intros ->; done).
      apply Hacc. by right. }
    exists totals'. rewrite Hrun. split_and!.
    + f_equal. f_equal. unfold price_td. now rewrite append_assoc.
    + intros s Hs. apply elem_of_cons in Hs as [-> | Hs]; [| by apply Hin].
      rewrite Hout by done. apply lookup_insert_eq.
    + intros s Hs. rewrite not_elem_of_cons in Hs. destruct Hs as [Hne Hs].
      rewrite Hout by done. by rewrite lookup_insert_ne.
Qed.

Lemma remaining_rows_spec (items : DataFrame) (suppliers : list cell) :
  NoDup suppliers →
  ∀ ds totals html acc, holds totals suppliers acc →
  ∃ totals',
    for_each (remaining_row items suppliers) ds (totals, html)
    = Ok (totals', html +:+ join (map (row_markup items suppliers) ds))
    ∧ holds totals' suppliers
        (λ s, foldl (λ a d, py_add a (lookup_price items s d)) (acc s) ds).
Proof.
  intros Hnd. induction ds as [|d ds IH]; intros totals html acc Hacc.
  - exists totals. simpl. now rewrite append_empty_r.
  - simpl.
    destruct (price_cells_spec items d suppliers Hnd totals
                (html +:+ "<tr>" +:+ "<td>1</td><td>" +:+ str_cell d +:+ "</td>")
                acc Hacc) as (totals1 & Hrun & Hin & _).
    rewrite append_assoc, Hrun, !bind_Ok. simpl.
    destruct (IH totals1
                ((html +:+ "<tr>" +:+ ("<td>1</td><td>" +:+ str_cell d +:+ "</td>")
                    +:+ price_tds items suppliers d) +:+ "</tr>")
                _ Hin) as (totals' & Hrun' & Hin').
    exists totals'.
    rewrite <- !append_assoc in Hrun'. rewrite <- !append_assoc.
    rewrite Hrun'. split; [| done].
    f_equal. f_equal. unfold row_markup. now rewrite !append_assoc.
Qed.

Lemma item_rows_spec (items : DataFrame) (suppliers : list cell)
    (d0 : cell) (ds : list cell) (body_rows : Z) (brand code power_type : cell)
    (html : string) :
  NoDup suppliers →
  ∃ totals,
    item_rows items suppliers (d0 :: ds) body_rows brand code power_type html
    = Ok (totals,
          html +:+ "<tr>"
          +:+ details_cells body_rows brand code power_type d0
          +:+ price_tds items suppliers d0 +:+ "</tr>"
          +:+ join (map (row_markup items suppliers) ds))
    ∧ holds totals suppliers (subtotal items (d0 :: ds)).
Proof.
  intros Hnd. unfold item_rows. simpl array0. rewrite !bind_Ok.
  destruct (price_cells_spec items d0 suppliers Hnd _
              ((html +:+ "<tr>")
                 +:+ details_cells body_rows brand code power_type d0)
              _ (init_totals suppliers)) as (totals1 & Hrun & Hin & _).
  rewrite Hrun, !bind_Ok. simpl.
  destruct (remaining_rows_spec items suppliers Hnd ds totals1
              ((((html +:+ "<tr>")
                   +:+ details_cells body_rows brand code power_type d0)
                  +:+ price_tds items suppliers d0) +:+ "</tr>")
              _ Hin) as (totals' & Hrun' & Hin').
  exists totals'. rewrite Hrun'. split; [| done].
  f_equal. f_equal. now rewrite !append_assoc.
Qed.

Lemma total_cell_eq (totals : gmap cell pynum) (tax_rate : float)
    (html : string) (s : cell) (t : pynum) :
  totals !! s = Some t →
  total_cell totals tax_rate html s
  = Ok (html +:+ price_td (final_total t tax_rate)).
Proof. intros H. unfold total_cell, getitem. now rewrite H. Qed.

Lemma total_cells_spec (totals : gmap cell pynum) (tax_rate : float)
    (suppliers : list cell) (acc : cell → pynum) (html : string) :
  holds totals suppliers acc →
  total_cells totals tax_rate suppliers html
  = Ok (html +:+ join (map (λ s, price_td (final_total (acc s) tax_rate)) suppliers)).
Proof.
  unfold total_cells. revert html.
  induction suppliers as [|x l IH]; intros html Hacc; simpl.
  - now rewrite append_empty_r.
  - rewrite (total_cell_eq _ _ _ _ (acc x)) by (apply Hacc; left).
    rewrite !bind_Ok, IH.
    + f_equal. now rewrite !append_assoc.
    + intros s Hs. apply Hacc. by right.
Qed.

Lemma suppliers_NoDup (items : DataFrame) : NoDup (suppliers_of items).
Proof. apply NoDup_unique_from. Qed.

Lemma descriptions_NoDup (items : DataFrame) : NoDup (descriptions_of items).
Proof. apply NoDup_unique_from. Qed.

Lemma descriptions_nonempty (items : DataFrame) :
  items ≠ [] → ∃ d0 ds, descriptions_of items = d0 :: ds.
Proof.
  intros Hne. destruct (descriptions_of items) as [|d0 ds] eqn:E; [| eauto].
  apply unique_nil_inv in E. destruct items; [done | discriminate].
Qed.

Lemma brand_of_cases (items : DataFrame) :
  (∃ b, brand_of items = Ok b) ∨ brand_of items = Raise IndexError_iloc.
Proof.
  unfold brand_of. destruct (List.filter is_item items); simpl; eauto.
Qed.

Lemma html_group_ok (df : DataFrame) (tax_percent tax_rate : float)
    (html : string) (k : key) (b : cell) :
  brand_of (items_for_code df k.1 k.2) = Ok b →
  html_group df tax_percent tax_rate html k
  = Ok (html +:+ table_markup df tax_percent tax_rate k).
Proof.
  destruct k as [code power_type]. simpl. intros Hb.
  unfold html_group. rewrite Hb, bind_Ok.
  apply brand_of_first_brand in Hb as [-> Hne].
  destruct (descriptions_nonempty _ Hne) as (d0 & ds & Hd).
  unfold table_markup. simpl fst. simpl snd.
  set (items := items_for_code df code power_type) in *.
  rewrite Hd. rewrite !foldl_append.
  edestruct (item_rows_spec items (suppliers_of items) d0 ds) as (totals & -> & Hin);
    [apply suppliers_NoDup |].
  rewrite bind_Ok.
  rewrite (total_cells_spec _ _ _ _ _ Hin), bind_Ok.
  simpl head. simpl tail. simpl default. rewrite !foldl_append.
  f_equal. now rewrite !append_assoc.
Qed.

Lemma html_group_raise (df : DataFrame) (tax_percent tax_rate : float)
    (html : string) (k : key) (e : exn) :
  brand_of (items_for_code df k.1 k.2) = Raise e →
  html_group df tax_percent tax_rate html k = Raise e.
Proof.
  destruct k as [code power_type]. simpl. intros Hb.
  unfold html_group. now rewrite Hb.
Qed.

Lemma html_groups_ok (df : DataFrame) (tax_percent tax_rate : float)
    (ks : list key) (html : string) :
  Forall (λ k, ∃ b, brand_of (items_for_code df k.1 k.2) = Ok b) ks →
  for_each (html_group df tax_percent tax_rate) ks html
  = Ok (html +:+ join (map (table_markup df tax_percent tax_rate) ks)).
Proof.
  intros Hall. revert html.
  induction Hall as [|k ks [b Hb] Hall IH]; intros html; simpl.
  - now rewrite append_empty_r.
  - rewrite (html_group_ok _ _ _ _ _ _ Hb), bind_Ok, IH.
    now rewrite append_assoc.
Qed.

Lemma html_groups_raise (df : DataFrame) (tax_percent tax_rate : float)
    (ks : list key) (html : string) :
  Exists (λ k, List.filter is_item (items_for_code df k.1 k.2) = []) ks →
  for_each (html_group df tax_percent tax_rate) ks html = Raise IndexError_iloc.
Proof.
  intros Hex. revert html.
  induction ks as [|k ks IH]; intros html; [by apply Exists_nil in Hex |].
  simpl. destruct (brand_of_cases (items_for_code df k.1 k.2)) as [[b Hb] | Hb].
  - rewrite (html_group_ok _ _ _ _ _ _ Hb), bind_Ok. apply IH.
    apply Exists_cons in Hex as [Hk | Hex]; [| done].
    apply brand_of_no_item in Hk. congruence.
  - now rewrite (html_group_raise _ _ _ _ _ _ Hb).
Qed.

Lemma html_groups_inv (df : DataFrame) (tax_percent tax_rate : float)
    (ks : list key) (html out : string) :
  for_each (html_group df tax_percent tax_rate) ks html = Ok out →
  out = html +:+ join (map (table_markup df tax_percent tax_rate) ks)
  ∧ Forall (λ k, ∃ b, brand_of (items_for_code df k.1 k.2) = Ok b) ks.
Proof.
  revert html. induction ks as [|k ks IH]; intros html; simpl.
  - intros [= <-]. now rewrite append_empty_r.
  - destruct (brand_of_cases (items_for_code df k.1 k.2)) as [[b Hb] | Hb].
    + rewrite (html_group_ok _ _ _ _ _ _ Hb), bind_Ok. intros Hrun.
      apply IH in Hrun as [-> Hall]. split; [apply append_assoc |].
      constructor; eauto.
    + now rewrite (html_group_raise _ _ _ _ _ _ Hb).
Qed.

Lemma generate_html_table_inv (df : DataFrame) (tax_percent : float) (html : string) :
  generate_html_table df tax_percent = Ok html →
  html = html_head
         +:+ join (map (table_markup df tax_percent
                          (py_truediv (PyFloat tax_percent) (PyInt 100)))
                     (group_keys df))
         +:+ "</div>".
Proof.
  unfold generate_html_table.
  destruct (for_each _ (group_keys df) html_head) as [out|e] eqn:E; [| discriminate].
  apply html_groups_inv in E as [-> _]. rewrite bind_Ok. intros [= <-].
  apply append_assoc.
Qed.

(** ** Cell writes *)

Lemma elem_of_concat {A : Type} (ls : list (list A)) (x : A) :
  x ∈ concat ls ↔ ∃ l, l ∈ ls ∧ x ∈ l.
Proof.
  rewrite list_elem_of_In, in_concat.
  split; intros (l & H1 & H2); exists l; rewrite ?list_elem_of_In in *; auto.
Qed.

Lemma elem_of_range (a b k : Z) : k ∈ range a b ↔ a ≤ k < b.
Proof. unfold range. rewrite elem_of_seqZ. lia. Qed.

Lemma run_writes_app (ops1 ops2 : list op) (ws : gmap (Z * Z) Cell) :
  run_writes (ops1 ++ ops2) ws = run_writes ops2 (run_writes ops1 ws).
Proof. apply foldl_app. Qed.

(** A cell no statement addresses keeps its content. *)
Lemma run_writes_frame (ops : list op) (ws : gmap (Z * Z) Cell) (r c : Z) :
  (∀ o, o ∈ ops → (o.1.1, o.1.2) ≠ (r, c)) →
  run_writes ops ws !! (r, c) = ws !! (r, c).
Proof.
  revert ws. induction ops as [|[[r' c'] w] ops IH]; intros ws Hno; [done |].
  unfold run_writes in *. simpl. rewrite IH.
  - apply lookup_insert_ne. apply (Hno (r', c', w)). left.
  - intros o Ho. apply Hno. by right.
Qed.

(** What the statements make of a cell depends on that cell only. *)
Lemma run_writes_local (ops : list op) (ws1 ws2 : gmap (Z * Z) Cell) (r c : Z) :
  ws1 !! (r, c) = ws2 !! (r, c) →
  run_writes ops ws1 !! (r, c) = run_writes ops ws2 !! (r, c).
Proof.
  revert ws1 ws2. induction ops as [|[[r' c'] w] ops IH]; intros ws1 ws2 H; [done |].
  unfold run_writes in *. simpl. apply IH.
  destruct (decide ((r', c') = (r, c))) as [E | Hne].
  - rewrite E, !lookup_insert_eq. by rewrite H.
  - by rewrite !lookup_insert_ne.
Qed.

(** A cell that is given one value, whatever else is set on it, holds it. *)
Lemma value_at_written (ops : list op) (ws : gmap (Z * Z) Cell) (r c : Z) (v : value) :
  (r, c, SetValue v) ∈ ops →
  (∀ v', (r, c, SetValue v') ∈ ops → v' = v) →
  value_at (run_writes ops ws) r c = Some v.
Proof.
  induction ops as [|[[r' c'] w] ops IH] using rev_ind; intros Hin Huniq.
  - by apply elem_of_nil in Hin.
  - rewrite run_writes_app. simpl. unfold value_at.
    destruct (decide ((r', c') = (r, c))) as [E | Hne].
    + injection E as -> ->. rewrite lookup_insert_eq. simpl.
      destruct w as [v' | f | f | b]; simpl;
        [f_equal; apply Huniq; apply elem_of_app; right; left | ..];
        (rewrite elem_of_app, list_elem_of_singleton in Hin;
         destruct Hin as [Hin | [=]];
         fold (value_at (run_writes ops ws) r c) in IH;
         specialize (IH Hin); rewrite <- IH;
         [ unfold value_at; by destruct (run_writes ops ws !! (r, c))
         | intros v' Hv'; apply Huniq; apply elem_of_app; by left ]).
    + rewrite lookup_insert_ne by done.
      apply IH.
      * rewrite elem_of_app, list_elem_of_singleton in Hin.
        destruct Hin as [Hin | E]; [done |]. injection E as -> -> _. done.
      * intros v' Hv'. apply Huniq. apply elem_of_app. by left.
Qed.

(** ** Where one group writes *)

Ltac offsets := unfold start_row_offset, start_col_offset, len in *.

Ltac pick_cons H :=
  repeat first
    [ apply elem_of_nil in H; destruct H
    | apply elem_of_cons in H as [H | H] ].

Lemma header_writes_row (suppliers : list cell) (start_row : Z) (o : op) :
  o ∈ header_writes suppliers start_row → o.1.1 = start_row + 1.
Proof.
  unfold header_writes. offsets. rewrite !elem_of_app. intros [H | [H | H]].
  - pick_cons H; by subst.
  - apply elem_of_lookup_imap in H as (i & s & -> & _). done.
  - apply elem_of_map in H as (col & _ & ->). done.
Qed.

Lemma header_writes_value (suppliers : list cell) (start_row r c : Z) (v : value) :
  (r, c, SetValue v) ∈ header_writes suppliers start_row →
  r = start_row + 1
  ∧ ((c = 2 ∧ v = VText (Some "Details"))
     ∨ (c = 4 ∧ v = VText (Some "Image"))
     ∨ (c = 5 ∧ v = VText (Some "QTY"))
     ∨ (c = 6 ∧ v = VText (Some "Items"))
     ∨ ∃ j s, suppliers !! j = Some s ∧ c = 7 + Z.of_nat j ∧ v = VText s).
Proof.
  unfold header_writes. offsets. rewrite !elem_of_app. intros [H | [H | H]].
  - pick_cons H; injection H as -> -> ->; split; (lia || tauto).
  - apply elem_of_lookup_imap in H as (j & s & [= -> -> ->] & Hs).
    split; [lia |]. repeat right. exists j, s. split_and!; [done | lia | done].
  - apply elem_of_map in H as (col & _ & [=]).
Qed.

Lemma identity_writes_row (brand code power_type : cell) (data_row : Z) (o : op) :
  o ∈ identity_writes brand code power_type data_row →
  data_row + 1 ≤ o.1.1 ≤ data_row + 3 ∧ 2 ≤ o.1.2 ≤ 3.
Proof.
  unfold identity_writes. offsets. intros H. pick_cons H; subst; simpl; lia.
Qed.

Lemma line_writes_row (items : DataFrame) (suppliers : list cell) (data_row : Z)
    (i : nat) (desc : cell) (o : op) :
  o ∈ line_writes items suppliers data_row i desc →
  o.1.1 = data_row + Z.of_nat i + 1 ∧ 5 ≤ o.1.2.
Proof.
  unfold line_writes. offsets. rewrite elem_of_app. intros [H | H].
  - pick_cons H; subst; simpl; lia.
  - apply elem_of_concat in H as (l & Hl & H).
    apply elem_of_lookup_imap in Hl as (j & s & -> & _).
    pick_cons H; subst; simpl; lia.
Qed.

Lemma line_writes_value (items : DataFrame) (suppliers : list cell) (data_row : Z)
    (i : nat) (desc : cell) (r c : Z) (v : value) :
  (r, c, SetValue v) ∈ line_writes items suppliers data_row i desc →
  r = data_row + Z.of_nat i + 1
  ∧ ((c = 5 ∧ v = VNum (PyInt 1))
     ∨ (c = 6 ∧ v = VText desc)
     ∨ ∃ j s, suppliers !! j = Some s ∧ c = 7 + Z.of_nat j
              ∧ v = VFormula (EMul (ERef 5 r) (ENum (lookup_price items s desc)))).
Proof.
  unfold line_writes. offsets. rewrite elem_of_app. intros [H | H].
  - pick_cons H; injection H as -> -> ->; split; (lia || tauto).
  - apply elem_of_concat in H as (l & Hl & H).
    apply elem_of_lookup_imap in Hl as (j & s & -> & Hs).
    pick_cons H; [| discriminate]. injection H as -> -> ->.
    split; [lia |]. right. right. exists j, s.
    split_and!; [done | lia | done].
Qed.

Lemma line_writes_formula (items : DataFrame) (suppliers : list cell)
    (data_row : Z) (i j : nat) (desc s : cell) :
  suppliers !! j = Some s →
  let row := data_row + Z.of_nat i + 1 in
  (row, 7 + Z.of_nat j,
   SetValue (VFormula (EMul (ERef 5 row) (ENum (lookup_price items s desc)))))
  ∈ line_writes items suppliers data_row i desc.
Proof.
  intros Hs row. unfold line_writes. offsets. apply elem_of_app. right.
  apply elem_of_concat. eexists. split.
  - apply elem_of_lookup_imap. exists j, s. split; [reflexivity | done].
  - simpl. replace (6 + Z.of_nat j + 1) with (7 + Z.of_nat j) by lia.
    replace (4 + 1) with 5 by lia. left.
Qed.

Lemma tax_writes_row (suppliers : list cell) (tax_rate : float) (tax_row : Z) (o : op) :
  o ∈ tax_writes suppliers tax_rate tax_row → o.1.1 = tax_row ∧ 5 ≤ o.1.2.
Proof.
  unfold tax_writes. offsets. intros H. apply elem_of_cons in H as [-> | H].
  - simpl. lia.
  - apply elem_of_concat in H as (l & Hl & H).
    apply elem_of_map in Hl as (i & Hi & ->). apply elem_of_range in Hi.
    pick_cons H; subst; simpl; lia.
Qed.

Lemma tax_writes_value (suppliers : list cell) (tax_rate : float) (tax_row r c : Z)
    (v : value) :
  (r, c, SetValue v) ∈ tax_writes suppliers tax_rate tax_row →
  r = tax_row
  ∧ ((c = 6 ∧ v = VText (Some "Tax")) ∨ (7 ≤ c ∧ v = VNum (PyFloat tax_rate))).
Proof.
  unfold tax_writes. offsets. intros H. apply elem_of_cons in H as [H | H].
  - injection H as -> -> ->. split; [done |]. left. split; [lia | done].
  - apply elem_of_concat in H as (l & Hl & H).
    apply elem_of_map in Hl as (i & Hi & ->). apply elem_of_range in Hi.
    pick_cons H; [| discriminate]. injection H as -> -> ->.
    split; [done |]. right. split; [lia | done].
Qed.

Lemma total_writes_row (suppliers : list cell) (first_item_row last_item_row
    tax_row total_row : Z) (o : op) :
  o ∈ total_writes suppliers first_item_row last_item_row tax_row total_row →
  o.1.1 = total_row ∧ 5 ≤ o.1.2.
Proof.
  unfold total_writes. offsets. rewrite elem_of_app. intros [H | H].
  - pick_cons H; subst; simpl; lia.
  - apply elem_of_concat in H as (l & Hl & H).
    apply elem_of_map in Hl as (i & Hi & ->). apply elem_of_range in Hi.
    pick_cons H; subst; simpl; lia.
Qed.

Lemma total_writes_value (suppliers : list cell) (first_item_row last_item_row
    tax_row total_row r c : Z) (v : value) :
  (r, c, SetValue v)
  ∈ total_writes suppliers first_item_row last_item_row tax_row total_row →
  r = total_row
  ∧ ((c = 6 ∧ v = VText (Some "Total"))
     ∨ (7 ≤ c
        ∧ v = VFormula (EMul (ESum c first_item_row last_item_row)
                          (EAdd (ENum (PyInt 1)) (ERef c tax_row))))).
Proof.
  unfold total_writes. offsets. rewrite elem_of_app. intros [H | H].
  - pick_cons H; [| discriminate]. injection H as -> -> ->.
    split; [done |]. left. split; [lia | done].
  - apply elem_of_concat in H as (l & Hl & H).
    apply elem_of_map in Hl as (i & Hi & ->). apply elem_of_range in Hi.
    pick_cons H; try discriminate. injection H as -> -> ->.
    split; [done |]. right. split; [lia | done].
Qed.

Lemma border_writes_row (first_row last_row first_col last_col : Z) (o : op) :
  o ∈ border_writes first_row last_row first_col last_col →
  first_row ≤ o.1.1 ≤ last_row ∧ (∀ v, o.2 ≠ SetValue v).
Proof.
  unfold border_writes. intros H.
  apply elem_of_concat in H as (l & Hl & H).
  apply elem_of_map in Hl as (r & Hr & ->). apply elem_of_range in Hr.
  apply elem_of_map in H as (c & Hc & ->). simpl. split; [lia | done].
Qed.

Lemma extra_rows_cases (items : DataFrame) :
  extra_rows items = 0 ∨ extra_rows items = 2.
Proof. unfold extra_rows. destruct (existsb _ items); tauto. Qed.

Lemma total_row_of_eq (items : DataFrame) (descriptions : list cell) (cur : Z) :
  total_row_of items descriptions cur
  = cur + 3 + len descriptions + extra_rows items.
Proof. unfold total_row_of, tax_row_of. offsets. lia. Qed.

Lemma len_pos {A : Type} (l : list A) : l ≠ [] → 1 ≤ len l.
Proof. destruct l; [done |]. unfold len. simpl. lia. Qed.

(** Every statement of a group addresses a row of its block. *)
Lemma group_writes_rows (items : DataFrame) (suppliers descriptions : list cell)
    (brand code power_type : cell) (tax_rate : float) (cur : Z) (o : op) :
  descriptions ≠ [] →
  o ∈ group_writes items suppliers descriptions brand code power_type tax_rate cur →
  cur + 1 ≤ o.1.1 ≤ total_row_of items descriptions cur.
Proof.
  intros Hne. rewrite total_row_of_eq.
  pose proof (extra_rows_cases items) as Hx. pose proof (len_pos _ Hne) as Hn.
  unfold group_writes, tax_row_of. offsets.
  rewrite !elem_of_app. intros [H | [H | [H | [H | [H | H]]]]].
  - apply header_writes_row in H. lia.
  - apply identity_writes_row in H. lia.
  - apply elem_of_concat in H as (l & Hl & H).
    apply elem_of_lookup_imap in Hl as (i & d & -> & Hd).
    apply line_writes_row in H. apply lookup_lt_Some in Hd. lia.
  - apply tax_writes_row in H. lia.
  - apply total_writes_row in H. lia.
  - apply border_writes_row in H. lia.
Qed.

(** Every value a group writes, by segment. *)
Lemma group_writes_value (items : DataFrame) (suppliers descriptions : list cell)
    (brand code power_type : cell) (tax_rate : float) (cur r c : Z) (v : value) :
  (r, c, SetValue v)
  ∈ group_writes items suppliers descriptions brand code power_type tax_rate cur →
  let tax_row := tax_row_of items descriptions cur in
  (r = cur + 1
   ∧ ((c = 2 ∧ v = VText (Some "Details"))
      ∨ (c = 4 ∧ v = VText (Some "Image"))
      ∨ (c = 5 ∧ v = VText (Some "QTY"))
      ∨ (c = 6 ∧ v = VText (Some "Items"))
      ∨ ∃ j s, suppliers !! j = Some s ∧ c = 7 + Z.of_nat j ∧ v = VText s))
  ∨ (cur + 2 ≤ r ≤ cur + 4 ∧ 2 ≤ c ≤ 3)
  ∨ (∃ i d, descriptions !! i = Some d ∧ r = cur + 2 + Z.of_nat i
            ∧ ((c = 5 ∧ v = VNum (PyInt 1))
               ∨ (c = 6 ∧ v = VText d)
               ∨ ∃ j s, suppliers !! j = Some s ∧ c = 7 + Z.of_nat j
                        ∧ v = VFormula
                                (EMul (ERef 5 r) (ENum (lookup_price items s d)))))
  ∨ (r = tax_row
     ∧ ((c = 6 ∧ v = VText (Some "Tax")) ∨ (7 ≤ c ∧ v = VNum (PyFloat tax_rate))))
  ∨ (r = tax_row + 1
     ∧ ((c = 6 ∧ v = VText (Some "Total"))
        ∨ (7 ≤ c
           ∧ v = VFormula (EMul (ESum c (cur + 2) (tax_row - 1))
                             (EAdd (ENum (PyInt 1)) (ERef c tax_row)))))).
Proof.
  unfold group_writes. rewrite !elem_of_app. intros [H | [H | [H | [H | [H | H]]]]].
  - left. by apply header_writes_value in H.
  - right. left. apply identity_writes_row in H. simpl in H. lia.
  - right. right. left.
    apply elem_of_concat in H as (l & Hl & H).
    apply elem_of_lookup_imap in Hl as (i & d & -> & Hd).
    apply line_writes_value in H as [Hr H]. exists i, d.
    split_and!; [done | lia | done].
  - right. right. right. left. by apply tax_writes_value in H.
  - right. right. right. right. apply total_writes_value in H. offsets.
    replace (cur + 2) with (cur + 1 + 1) by lia. done.
  - apply border_writes_row in H as [_ H]. destruct (H v). done.
Qed.

Lemma tax_row_of_eq (items : DataFrame) (descriptions : list cell) (cur : Z) :
  tax_row_of items descriptions cur
  = cur + 2 + len descriptions + extra_rows items.
Proof. unfold tax_row_of. offsets. lia. Qed.

(** No cell of a group is given two different values. *)
Lemma group_values_functional (items : DataFrame) (suppliers descriptions : list cell)
    (brand code power_type : cell) (tax_rate : float) (cur r c : Z) (v1 v2 : value) :
  (r, c, SetValue v1)
  ∈ group_writes items suppliers descriptions brand code power_type tax_rate cur →
  (r, c, SetValue v2)
  ∈ group_writes items suppliers descriptions brand code power_type tax_rate cur →
  (2 ≤ c ≤ 3 → ¬ cur + 2 ≤ r ≤ cur + 4) →
  v1 = v2.
Proof.
  intros H1 H2 Hid.
  apply group_writes_value in H1, H2. cbv zeta in H1, H2.
  rewrite tax_row_of_eq in H1, H2.
  pose proof (extra_rows_cases items) as Hx.
  assert (Hi : ∀ i (d : cell), descriptions !! i = Some d →
               (Z.of_nat i < len descriptions)).
  { intros i d Hd. apply lookup_lt_Some in Hd. unfold len. lia. }
  assert (Hnot : ¬ (cur + 2 ≤ r ≤ cur + 4 ∧ 2 ≤ c ≤ 3)) by tauto.
  assert (Hlen : 0 ≤ len descriptions) by (unfold len; lia).
  destruct H1 as [[Hr1 H1] | [H1 | [(i1 & d1 & Hd1 & Hr1 & H1) | [[Hr1 H1] | [Hr1 H1]]]]];
    [| destruct (Hnot H1) | pose proof (Hi _ _ Hd1) | |];
  (destruct H2 as [[Hr2 H2] | [H2 | [(i2 & d2 & Hd2 & Hr2 & H2) | [[Hr2 H2] | [Hr2 H2]]]]];
    [| destruct (Hnot H2) | pose proof (Hi _ _ Hd2) | |]);
    try (exfalso; lia).
  - destruct H1 as [[? ->] | [[? ->] | [[? ->] | [[? ->] | (j1 & s1 & Hs1 & ? & ->)]]]];
    destruct H2 as [[? ->] | [[? ->] | [[? ->] | [[? ->] | (j2 & s2 & Hs2 & ? & ->)]]]];
      try done; try (exfalso; lia).
    assert (j1 = j2) by lia. subst. congruence.
  - assert (i1 = i2) by lia. subst i2.
    assert (d1 = d2) by congruence. subst d2.
    destruct H1 as [[? ->] | [[? ->] | (j1 & s1 & Hs1 & ? & ->)]];
    destruct H2 as [[? ->] | [[? ->] | (j2 & s2 & Hs2 & ? & ->)]];
      try done; try (exfalso; lia).
    assert (j1 = j2) by lia. subst. congruence.
  - destruct H1 as [[? ->] | [? ->]]; destruct H2 as [[? ->] | [? ->]];
      try done; exfalso; lia.
  - destruct H1 as [[? ->] | [? ->]]; destruct H2 as [[? ->] | [? ->]];
      try done; exfalso; lia.
Qed.

(** ** The groups on the sheet *)

Lemma for_each_cons {A S : Type} (f : S → A → result S) (x : A) (l : list A) (s : S) :
  for_each f (x :: l) s = f s x ≫= for_each f l.
Proof. reflexivity. Qed.

Lemma for_each_app {A S : Type} (f : S → A → result S) (l1 l2 : list A) (s : S) :
  for_each f (l1 ++ l2) s = for_each f l1 s ≫= for_each f l2.
Proof.
  revert s. induction l1 as [|x l1 IH]; intros s; simpl; [done |].
  destruct (f s x) as [s'|e]; [| done]. rewrite !bind_Ok. apply IH.
Qed.

Lemma xlsx_group_ok (df : DataFrame) (tax_rate : float) (ws : gmap (Z * Z) Cell)
    (cur : Z) (k : key) (b : cell) :
  let items := items_for_code df k.1 k.2 in
  brand_of items = Ok b →
  xlsx_group df tax_rate (ws, cur) k
  = Ok (run_writes
          (group_writes items (suppliers_of items) (descriptions_of items)
             b k.1 k.2 tax_rate cur) ws,
        next_row df cur k).
Proof.
  destruct k as [code power_type]. simpl. intros Hb.
  unfold xlsx_group, next_row. simpl. now rewrite Hb.
Qed.

Lemma xlsx_group_raise (df : DataFrame) (tax_rate : float)
    (st : gmap (Z * Z) Cell * Z) (k : key) (e : exn) :
  brand_of (items_for_code df k.1 k.2) = Raise e →
  xlsx_group df tax_rate st k = Raise e.
Proof.
  destruct k as [code power_type], st as [ws cur]. simpl. intros Hb.
  unfold xlsx_group. now rewrite Hb.
Qed.

Lemma next_row_eq (df : DataFrame) (cur : Z) (k : key) :
  let items := items_for_code df k.1 k.2 in
  next_row df cur k = total_row_of items (descriptions_of items) cur + 3.
Proof. reflexivity. Qed.

Lemma next_row_ge (df : DataFrame) (cur : Z) (k : key) :
  cur + 6 ≤ next_row df cur k.
Proof.
  unfold next_row. rewrite total_row_of_eq.
  pose proof (extra_rows_cases (items_for_code df k.1 k.2)).
  unfold len. lia.
Qed.

Lemma brand_descriptions (items : DataFrame) (b : cell) :
  brand_of items = Ok b → descriptions_of items ≠ [].
Proof.
  intros Hb. apply brand_of_first_brand in Hb as [_ Hne].
  destruct (descriptions_nonempty _ Hne) as (d0 & ds & ->). done.
Qed.

(** A group leaves the rows outside its block as they were. *)
Lemma group_frame (items : DataFrame) (b code power_type : cell) (tax_rate : float)
    (cur r c : Z) (ws : gmap (Z * Z) Cell) :
  descriptions_of items ≠ [] →
  r ≤ cur ∨ total_row_of items (descriptions_of items) cur < r →
  run_writes
    (group_writes items (suppliers_of items) (descriptions_of items)
       b code power_type tax_rate cur) ws !! (r, c)
  = ws !! (r, c).
Proof.
  intros Hne Hr. apply run_writes_frame. intros o Ho [= Hrow _].
  apply group_writes_rows in Ho; [| done]. lia.
Qed.

Lemma xlsx_groups_frame (df : DataFrame) (tax_rate : float) (ks : list key) :
  ∀ ws cur ws' cur',
  for_each (xlsx_group df tax_rate) ks (ws, cur) = Ok (ws', cur') →
  cur' = row_after df ks cur
  ∧ cur ≤ cur'
  ∧ (∀ r c, r ≤ cur → ws' !! (r, c) = ws !! (r, c))
  ∧ (∀ r c, cur' - 3 < r → ws' !! (r, c) = ws !! (r, c)).
Proof.
  induction ks as [|k ks IH]; intros ws cur ws' cur'.
  - intros [= <- <-]. split_and!; (done || (simpl; lia)).
  - rewrite for_each_cons. destruct (brand_of_cases (items_for_code df k.1 k.2)) as [[b Hb] | Hb];
      [| now rewrite (xlsx_group_raise _ _ _ _ _ Hb)].
    rewrite (xlsx_group_ok _ _ _ _ _ _ Hb), bind_Ok. intros Hrun.
    apply IH in Hrun as (-> & Hle & Hlow & Hhigh).
    pose proof (next_row_ge df cur k) as Hge.
    pose proof (brand_descriptions _ _ Hb) as Hne.
    unfold row_after in *.
    split_and!; [done | lia | |].
    + intros r c Hr. rewrite Hlow by lia. apply group_frame; [done | by left].
    + intros r c Hr. rewrite Hhigh by done. apply group_frame; [done |].
      right. pose proof (next_row_eq df cur k) as Heq. cbv zeta in Heq. lia.
Qed.

(** The block of a group on the finished sheet is what the group's statements
    make of an empty sheet. *)
Lemma sheet_block (df : DataFrame) (tax_percent : float) (ws : gmap (Z * Z) Cell)
    (pre post : list key) (k : key) :
  generate_excel_file df tax_percent = Ok ws →
  group_keys df = pre ++ k :: post →
  let tax_rate := py_truediv (PyFloat tax_percent) (PyInt 100) in
  let cur := row_after df pre 1 in
  let items := items_for_code df k.1 k.2 in
  ∃ b,
    brand_of items = Ok b
    ∧ ∀ r c, cur < r ≤ next_row df cur k →
        ws !! (r, c)
        = run_writes
            (group_writes items (suppliers_of items) (descriptions_of items)
               b k.1 k.2 tax_rate cur) ∅ !! (r, c).
Proof.
  unfold generate_excel_file. intros Hgen Hkeys. cbv zeta.
  rewrite Hkeys, for_each_app in Hgen.
  destruct (for_each _ pre (∅, 1)) as [[ws_pre cur_pre]|e] eqn:Epre;
    [| discriminate].
  apply xlsx_groups_frame in Epre as (-> & Hle & _ & Hpre).
  rewrite bind_Ok, for_each_cons in Hgen.
  destruct (brand_of_cases (items_for_code df k.1 k.2)) as [[b Hb] | Hb];
    [| now rewrite (xlsx_group_raise _ _ _ _ _ Hb) in Hgen].
  exists b. split; [done |].
  rewrite (xlsx_group_ok _ _ _ _ _ _ Hb), bind_Ok in Hgen.
  destruct (for_each _ post _) as [[ws_post cur_post]|e] eqn:Epost;
    [| discriminate].
  injection Hgen as <-.
  apply xlsx_groups_frame in Epost as (_ & _ & Hlow & _).
  intros r c Hr. rewrite Hlow by lia.
  apply run_writes_local. rewrite Hpre by lia. done.
Qed.

Lemma row_after_snoc (df : DataFrame) (pre : list key) (k : key) (cur : Z) :
  row_after df (pre ++ [k]) cur = next_row df (row_after df pre cur) k.
Proof. unfold row_after. now rewrite foldl_app. Qed.

Lemma details_written (items : DataFrame) (suppliers descriptions : list cell)
    (b code power_type : cell) (tax_rate : float) (cur : Z) :
  (cur + 1, 2, SetValue (VText (Some "Details")))
  ∈ group_writes items suppliers descriptions b code power_type tax_rate cur.
Proof.
  unfold group_writes, header_writes. offsets.
  apply elem_of_app. left. apply elem_of_app. left. left.
Qed.

Lemma total_written (items : DataFrame) (suppliers descriptions : list cell)
    (b code power_type : cell) (tax_rate : float) (cur : Z) :
  (total_row_of items descriptions cur, 6, SetValue (VText (Some "Total")))
  ∈ group_writes items suppliers descriptions b code power_type tax_rate cur.
Proof.
  unfold group_writes, total_writes, total_row_of. offsets.
  rewrite !elem_of_app. do 4 right. left. left. left.
Qed.

Lemma quantity_written (items : DataFrame) (suppliers descriptions : list cell)
    (b code power_type : cell) (tax_rate : float) (cur : Z) (i : nat) (d : cell) :
  descriptions !! i = Some d →
  (cur + 2 + Z.of_nat i, 5, SetValue (VNum (PyInt 1)))
  ∈ group_writes items suppliers descriptions b code power_type tax_rate cur.
Proof.
  intros Hd. unfold group_writes. rewrite !elem_of_app. do 2 right. left.
  apply elem_of_concat. eexists. split.
  - apply elem_of_lookup_imap. exists i, d. split; [reflexivity | done].
  - unfold line_writes. offsets. apply elem_of_app. left.
    replace (cur + 1 + Z.of_nat i + 1) with (cur + 2 + Z.of_nat i) by lia. left.
Qed.

Lemma formula_written (items : DataFrame) (suppliers descriptions : list cell)
    (b code power_type : cell) (tax_rate : float) (cur : Z) (i j : nat) (d s : cell) :
  descriptions !! i = Some d → suppliers !! j = Some s →
  let row := cur + 2 + Z.of_nat i in
  (row, 7 + Z.of_nat j,
   SetValue (VFormula (EMul (ERef 5 row) (ENum (lookup_price items s d)))))
  ∈ group_writes items suppliers descriptions b code power_type tax_rate cur.
Proof.
  intros Hd Hs row. unfold group_writes. rewrite !elem_of_app. do 2 right. left.
  apply elem_of_concat. eexists. split.
  - apply elem_of_lookup_imap. exists i, d. split; [reflexivity | done].
  - pose proof (line_writes_formula items suppliers (cur + 1) i j d s Hs) as H.
    cbv zeta in H.
    replace (cur + 1 + Z.of_nat i + 1) with row in H by (unfold row; lia). done.
Qed.

Lemma xlsx_groups_raise (df : DataFrame) (tax_rate : float) (ks : list key)
    (st : gmap (Z * Z) Cell * Z) :
  Exists (λ k, List.filter is_item (items_for_code df k.1 k.2) = []) ks →
  for_each (xlsx_group df tax_rate) ks st = Raise IndexError_iloc.
Proof.
  intros Hex. revert st.
  induction ks as [|k ks IH]; intros [ws cur]; [by apply Exists_nil in Hex |].
  rewrite for_each_cons.
  destruct (brand_of_cases (items_for_code df k.1 k.2)) as [[b Hb] | Hb].
  - rewrite (xlsx_group_ok _ _ _ _ _ _ Hb), bind_Ok. apply IH.
    apply Exists_cons in Hex as [Hk | Hex]; [| done].
    apply brand_of_no_item in Hk. congruence.
  - now rewrite (xlsx_group_raise _ _ _ _ _ Hb).
Qed.

Lemma xlsx_groups_inv (df : DataFrame) (tax_rate : float) (ks : list key)
    (st st' : gmap (Z * Z) Cell * Z) :
  for_each (xlsx_group df tax_rate) ks st = Ok st' →
  Forall (λ k, ∃ b, brand_of (items_for_code df k.1 k.2) = Ok b) ks.
Proof.
  revert st. induction ks as [|k ks IH]; intros [ws cur]; [constructor |].
  rewrite for_each_cons.
  destruct (brand_of_cases (items_for_code df k.1 k.2)) as [[b Hb] | Hb].
  - rewrite (xlsx_group_ok _ _ _ _ _ _ Hb), bind_Ok. intros Hrun.
    constructor; eauto.
  - now rewrite (xlsx_group_raise _ _ _ _ _ Hb).
Qed.

(** The value of a cell of a block on the finished sheet. *)
Lemma sheet_value (df : DataFrame) (tax_percent : float) (ws : gmap (Z * Z) Cell)
    (pre post : list key) (k : key) (r c : Z) (v : value) :
  generate_excel_file df tax_percent = Ok ws →
  group_keys df = pre ++ k :: post →
  let tax_rate := py_truediv (PyFloat tax_percent) (PyInt 100) in
  let cur := row_after df pre 1 in
  let items := items_for_code df k.1 k.2 in
  cur < r ≤ next_row df cur k →
  (2 ≤ c ≤ 3 → ¬ cur + 2 ≤ r ≤ cur + 4) →
  (∀ b, (r, c, SetValue v)
        ∈ group_writes items (suppliers_of items) (descriptions_of items)
            b k.1 k.2 tax_rate cur) →
  value_at ws r c = Some v.
Proof.
  intros Hgen Hkeys tax_rate cur items Hr Hid Hin.
  destruct (sheet_block _ _ _ _ _ _ Hgen Hkeys) as (b & Hb & Hblock).
  unfold value_at. rewrite Hblock by done.
  apply value_at_written; [apply Hin |].
  intros v' Hv'. eapply group_values_functional; [exact Hv' | apply Hin | done].
Qed.

(** The three rows under a total row hold no cell. *)
Lemma gap_rows_blank (df : DataFrame) (tax_percent : float) (ws : gmap (Z * Z) Cell)
    (pre post : list key) (k : key) (r : Z) :
  generate_excel_file df tax_percent = Ok ws →
  group_keys df = pre ++ k :: post →
  let items := items_for_code df k.1 k.2 in
  let t := total_row_of items (descriptions_of items) (row_after df pre 1) in
  t < r ≤ t + 3 →
  row_is_blank ws r.
Proof.
  intros Hgen Hkeys items t Hr c.
  destruct (sheet_block _ _ _ _ _ _ Hgen Hkeys) as (b & Hb & Hblock).
  pose proof (next_row_eq df (row_after df pre 1) k) as Hnext. cbv zeta in Hnext.
  pose proof (total_row_of_eq items (descriptions_of items) (row_after df pre 1)) as Ht.
  pose proof (extra_rows_cases items) as Hx.
  assert (0 ≤ len (descriptions_of items)) by (unfold len; lia).
  fold items in Hnext. fold t in Hnext, Ht.
  rewrite Hblock by lia.
  rewrite group_frame; [done | by eapply brand_descriptions | right; apply Hr].
Qed.

(** Under the last group the sheet is empty. *)
Lemma rows_below_last_blank (df : DataFrame) (tax_percent : float)
    (ws : gmap (Z * Z) Cell) (pre : list key) (k : key) (r : Z) :
  generate_excel_file df tax_percent = Ok ws →
  group_keys df = pre ++ [k] →
  let items := items_for_code df k.1 k.2 in
  total_row_of items (descriptions_of items) (row_after df pre 1) < r →
  row_is_blank ws r.
Proof.
  intros Hgen Hkeys items Hr c. unfold generate_excel_file in Hgen.
  destruct (for_each _ (group_keys df) (∅, 1)) as [[ws' cur']|e] eqn:E;
    [| discriminate].
  injection Hgen as ->.
  apply xlsx_groups_frame in E as (-> & _ & _ & Hhigh).
  rewrite Hhigh; [done |].
  rewrite Hkeys, row_after_snoc, next_row_eq. fold items. lia.
Qed.

(** ** Two-decimal rendering *)

Lemma round_half_even_bound (n d : Z) :
  0 < d → 2 * Z.abs (round_half_even n d * d - n) ≤ d.
Proof.
  intros Hd. unfold round_half_even.
  pose proof (Z.div_mod n d ltac:(lia)) as Hdm.
  pose proof (Z.mod_pos_bound n d Hd) as Hr.
  destruct (Z.ltb_spec (2 * (n mod d)) d); [nia |].
  destruct (Z.ltb_spec d (2 * (n mod d))); [nia |].
  destruct (Z.even (n / d)); nia.
Qed.

Lemma hundredths_close (c m D : Z) :
  0 < D → 2 * Z.abs (c * D - 100 * m) ≤ D →
  (Qabs (Qmake c 100 - Qmake m (Z.to_pos D)) <= 1 # 200)%Q.
Proof.
  intros HD Hb. apply Qabs_Qle_condition.
  unfold Qle, Qminus, Qplus, Qopp. cbn [Qnum Qden].
  rewrite ?Pos2Z.inj_mul, ?Z2Pos.id by lia.
  split; nia.
Qed.

Lemma Qabs_opp_minus (a b : Q) : (Qabs (- a - - b) == Qabs (a - b))%Q.
Proof.
  assert (E : (- a - - b == - (a - b))%Q) by ring.
  rewrite E. apply Qabs_opp.
Qed.

Lemma magnitude_close (m : positive) (e : Z) :
  (Qabs (Qmake (cents m e) 100
         - (if 0 <=? e then inject_Z (Z.pos m * 2 ^ e)
            else Qmake (Z.pos m) (Z.to_pos (2 ^ (- e)))))
   <= 1 # 200)%Q.
Proof.
  unfold cents, hundredths_frac. destruct (Z.leb_spec 0 e) as [He | He].
  - pose proof (round_half_even_bound (100 * Z.pos m * 2 ^ e) 1 ltac:(lia)) as Hb.
    assert (Hp : 0 < 2 ^ e) by (apply Z.pow_pos_nonneg; lia).
    replace (inject_Z (Z.pos m * 2 ^ e))
      with (Qmake (Z.pos m * 2 ^ e) (Z.to_pos 1)) by done.
    apply hundredths_close; [lia |]. nia.
  - assert (Hp : 0 < 2 ^ (- e)) by (apply Z.pow_pos_nonneg; lia).
    apply hundredths_close; [done |].
    apply round_half_even_bound. done.
Qed.

(** What the markup shows is the number rounded to hundredths: it is within
    half a hundredth of the number itself. *)
Lemma displayed_close (x : pynum) (q : Q) :
  exact_value x = Some q →
  ∃ d, displayed_value x = Some d ∧ (Qabs (d - q) <= 1 # 200)%Q.
Proof.
  unfold exact_value, displayed_value.
  destruct (Prim2SF (to_float x)) as [s | s | | s m e];
    unfold SF_exact, SF_displayed; try discriminate.
  - intros [= <-]. exists 0%Q. split; [done |]. vm_compute. discriminate.
  - intros [= <-]. eexists. split; [reflexivity |].
    destruct s; [rewrite Qabs_opp_minus |]; apply magnitude_close.
Qed.

Lemma supplier_written (items : DataFrame) (suppliers descriptions : list cell)
    (b code power_type : cell) (tax_rate : float) (cur : Z) (j : nat) (s : cell) :
  suppliers !! j = Some s →
  (cur + 1, 7 + Z.of_nat j, SetValue (VText s))
  ∈ group_writes items suppliers descriptions b code power_type tax_rate cur.
Proof.
  intros Hs. unfold group_writes, header_writes. offsets.
  apply elem_of_app. left. apply elem_of_app. right. apply elem_of_app. left.
  replace (7 + Z.of_nat j) with (6 + Z.of_nat j + 1) by lia.
  apply (elem_of_lookup_imap_2
           (λ (i : nat) (supplier : cell),
              (cur + 1, 6 + Z.of_nat i + 1, SetValue (VText supplier)))).
  done.
Qed.

Lemma description_written (items : DataFrame) (suppliers descriptions : list cell)
    (b code power_type : cell) (tax_rate : float) (cur : Z) (i : nat) (d : cell) :
  descriptions !! i = Some d →
  (cur + 2 + Z.of_nat i, 6, SetValue (VText d))
  ∈ group_writes items suppliers descriptions b code power_type tax_rate cur.
Proof.
  intros Hd. unfold group_writes. rewrite !elem_of_app. do 2 right. left.
  apply elem_of_concat. eexists. split.
  - apply elem_of_lookup_imap. exists i, d. split; [reflexivity | done].
  - unfold line_writes. offsets. apply elem_of_app. left.
    replace (cur + 1 + Z.of_nat i + 1) with (cur + 2 + Z.of_nat i) by lia.
    right. left.
Qed.

Lemma block_row_bounds (df : DataFrame) (cur : Z) (k : key) (i : nat) (d : cell) :
  descriptions_of (items_for_code df k.1 k.2) !! i = Some d →
  cur < cur + 2 + Z.of_nat i ≤ next_row df cur k.
Proof.
  intros Hd. apply lookup_lt_Some in Hd.
  unfold next_row. rewrite total_row_of_eq.
  pose proof (extra_rows_cases (items_for_code df k.1 k.2)).
  unfold len. lia.
Qed.

Lemma generate_html_table_ok (df : DataFrame) (tax_percent : float) :
  Forall (λ k, ∃ b, brand_of (items_for_code df k.1 k.2) = Ok b) (group_keys df) →
  generate_html_table df tax_percent
  = Ok (html_head
        +:+ join (map (table_markup df tax_percent
                         (py_truediv (PyFloat tax_percent) (PyInt 100)))
                    (group_keys df))
        +:+ "</div>").
Proof.
  intros Hall. unfold generate_html_table.
  rewrite (html_groups_ok _ _ _ _ _ Hall), bind_Ok. now rewrite append_assoc.
Qed.

Lemma join_app (l1 l2 : list string) : join (l1 ++ l2) = join l1 +:+ join l2.
Proof.
  induction l1 as [|x l1 IH]; [done |].
  simpl. rewrite IH. symmetry. apply append_assoc.
Qed.

Lemma lookup_map {A B : Type} (f : A → B) (l : list A) (i : nat) :
  map f l !! i = f <$> l !! i.
Proof.
  revert i. induction l as [|x l IH]; intros [|i]; simpl; first [done | apply IH].
Qed.

(** The markup of a group holds the price cells of each of its descriptions. *)
Lemma table_markup_row (df : DataFrame) (tax_percent tax_rate : float) (k : key)
    (i : nat) (d : cell) :
  let items := items_for_code df k.1 k.2 in
  descriptions_of items !! i = Some d →
  ∃ before after,
    table_markup df tax_percent tax_rate k
    = before +:+ price_tds items (suppliers_of items) d +:+ after.
Proof.
  intros items Hd. unfold table_markup. fold items.
  destruct (descriptions_of items) as [|d0 ds] eqn:E; [done |].
  destruct i as [|i]; simpl in Hd.
  - injection Hd as ->. simpl head. simpl default.
    eexists ("<table>" +:+ "<tr>"
             +:+ "<th>Details</th><th></th><th>QTY</th><th>Items</th>"
             +:+ join (map (λ s, "<th>" +:+ str_cell s +:+ "</th>") (suppliers_of items))
             +:+ "</tr>" +:+ "<tr>"
             +:+ details_cells (Z.of_nat (length (d :: ds)) + 2) (first_brand items)
                   k.1 k.2 d), _.
    rewrite !append_assoc. reflexivity.
  - simpl tail. apply list_elem_of_split_length in Hd as (l1 & l2 & -> & _).
    rewrite map_app, join_app. simpl map. simpl join. unfold row_markup at 2.
    eexists ("<table>" +:+ "<tr>"
             +:+ "<th>Details</th><th></th><th>QTY</th><th>Items</th>"
             +:+ join (map (λ s, "<th>" +:+ str_cell s +:+ "</th>") (suppliers_of items))
             +:+ "</tr>" +:+ "<tr>"
             +:+ details_cells (Z.of_nat (length (d0 :: l1 ++ d :: l2)) + 2)
                   (first_brand items) k.1 k.2 (default None (head (d0 :: l1 ++ d :: l2)))
             +:+ price_tds items (suppliers_of items)
                   (default None (head (d0 :: l1 ++ d :: l2)))
             +:+ "</tr>"
             +:+ join (map (row_markup items (suppliers_of items)) l1)
             +:+ "<tr>" +:+ "<td>1</td><td>" +:+ str_cell d +:+ "</td>"), _.
    rewrite !append_assoc. reflexivity.
Qed.

(** * The claims *)

(** C3: the grouping keys are exactly the distinct (code, Power Type) pairs of
    the rows with type "item" and a Power Type that is neither missing nor
    empty; the group of a key holds exactly the rows of the table whose code
    equals the key's, whose Power Type equals the key's or is blank, and whose
    type is "item" or "subitem".  Hence two rows of one code with different
    non-blank Power Types never share a group, and an item or subitem row with
    a blank Power Type is in every group of its code. *)
Theorem grouping_keys_and_groups (df : DataFrame) :
  NoDup (group_keys df)
  ∧ (∀ k, k ∈ group_keys df ↔
          ∃ r, r ∈ df ∧ r_type r = Some "item" ∧ ¬ blank (r_power_type r)
               ∧ k = key_of r)
  ∧ (∀ code power_type r,
       r ∈ items_for_code df code power_type ↔
       r ∈ df
       ∧ same (r_code r) code
       ∧ (same (r_power_type r) power_type ∨ blank (r_power_type r))
       ∧ item_or_subitem r)
  ∧ (∀ r1 r2 code power_type,
       r_code r1 = r_code r2 →
       ¬ blank (r_power_type r1) → ¬ blank (r_power_type r2) →
       r_power_type r1 ≠ r_power_type r2 →
       ¬ (r1 ∈ items_for_code df code power_type
          ∧ r2 ∈ items_for_code df code power_type))
  ∧ (∀ r k,
       r ∈ df → blank (r_power_type r) → item_or_subitem r →
       k ∈ group_keys df → same (r_code r) k.1 →
       r ∈ items_for_code df k.1 k.2).
Proof.
  split_and!.
  - apply NoDup_unique_from.
  - apply elem_of_group_keys.
  - apply elem_of_items_for_code.
  - intros r1 r2 code power_type _ Hb1 Hb2 Hne [H1 H2].
    apply elem_of_items_for_code in H1 as (_ & _ & [(p1 & E1 & Ep1) | Hbl] & _);
      [| done].
    apply elem_of_items_for_code in H2 as (_ & _ & [(p2 & E2 & Ep2) | Hbl] & _);
      [| done].
    congruence.
  - intros r k Hr Hbl Ht _ Hc. apply elem_of_items_for_code. tauto.
Qed.

Lemma grouping_keys_and_groups_witness :
  quote (Some "subitem") (Some "A") None (Some "K2") (Some "Z") None 0.125
  ∈ items_for_code two_groups (Some "K2") (Some "110V").
Proof.
  destruct (grouping_keys_and_groups two_groups) as (_ & _ & _ & _ & H).
  apply (H _ (Some "K2", Some "110V")).
  - vm_compute. do 3 right. left.
  - left. reflexivity.
  - right. reflexivity.
  - vm_compute. right. left.
  - exists "K2". split; reflexivity.
Defined.






Lemma no_item_row_filter (items : DataFrame) :
  (∀ r, r ∈ items → r_type r ≠ Some "item") → List.filter is_item items = [].
Proof.
  intros Hno. destruct (List.filter is_item items) as [|r rest] eqn:E; [done |].
  assert (Hr : r ∈ List.filter is_item items) by (rewrite E; left).
  apply elem_of_filter_bool in Hr as [Hr Hi]. apply is_item_iff in Hi.
  destruct (Hno r Hr Hi).
Qed.

(** C6, as amended: when the group of some key holds no row of type "item",
    both renderers fail, and the exception is the IndexError of the positional
    lookup [.iloc[0]]; no markup and no sheet is produced. *)
Theorem missing_item_row_raises_index_error (df : DataFrame) (tax_percent : float)
    (k : key) :
  k ∈ group_keys df →
  (∀ r, r ∈ items_for_code df k.1 k.2 → r_type r ≠ Some "item") →
  generate_html_table df tax_percent = Raise IndexError_iloc
  ∧ generate_excel_file df tax_percent = Raise IndexError_iloc
  ∧ exc_class IndexError_iloc = "IndexError".
Proof.
  intros Hk Hno. apply no_item_row_filter in Hno.
  assert (Hex : Exists (λ k, List.filter is_item (items_for_code df k.1 k.2) = [])
                  (group_keys df)).
  { apply Exists_exists. exists k. done. }
  split_and!; [| | done].
  - unfold generate_html_table. now rewrite html_groups_raise.
  - unfold generate_excel_file. now rewrite xlsx_groups_raise.
Qed.

Lemma missing_item_row_raises_index_error_witness :
  generate_html_table no_code 12 = Raise IndexError_iloc
  ∧ generate_excel_file no_code 12 = Raise IndexError_iloc
  ∧ exc_class IndexError_iloc = "IndexError".
Proof.
  apply (missing_item_row_raises_index_error no_code 12 (None, Some "220V")).
  - vm_compute. left.
  - intros r Hr. vm_compute in Hr. by apply elem_of_nil in Hr.
Defined.

(** C6, as stated, fails: on a group without item row the exception raised is
    not a MissingBrandError. *)
Lemma missing_brand_error_is_not_raised :
  ∃ k e,
    k ∈ group_keys no_code
    ∧ (∀ r, r ∈ items_for_code no_code k.1 k.2 → r_type r ≠ Some "item")
    ∧ generate_html_table no_code 12 = Raise e
    ∧ exc_class e ≠ "MissingBrandError".
Proof.
  exists (None, Some "220V"), IndexError_iloc. split_and!.
  - vm_compute. left.
  - intros r Hr. vm_compute in Hr. by apply elem_of_nil in Hr.
  - vm_compute. reflexivity.
  - discriminate.
Qed.

(** C8: the groups come in the order in which their keys first occur among
    the item rows; within a group the suppliers and the descriptions come in
    the order in which they first occur among the group's rows; the markup is
    the tables of the keys in that order, and on the sheet the supplier
    columns and the description rows of a block follow the same order. *)
Theorem emission_in_first_occurrence_order (df : DataFrame) (tax_percent : float) :
  let tax_rate := py_truediv (PyFloat tax_percent) (PyInt 100) in
  first_occurrence_order (map key_of (main_items df)) (group_keys df)
  ∧ (∀ k : key,
       let items := items_for_code df k.1 k.2 in
       first_occurrence_order (map r_supplier items) (suppliers_of items)
       ∧ first_occurrence_order (map r_description items) (descriptions_of items))
  ∧ (∀ html,
       generate_html_table df tax_percent = Ok html →
       html = html_head
              +:+ join (map (table_markup df tax_percent tax_rate) (group_keys df))
              +:+ "</div>")
  ∧ (∀ ws pre k post,
       generate_excel_file df tax_percent = Ok ws →
       group_keys df = pre ++ k :: post →
       let cur := row_after df pre 1 in
       let items := items_for_code df k.1 k.2 in
       (∀ j s, suppliers_of items !! j = Some s →
               value_at ws (cur + 1) (7 + Z.of_nat j) = Some (VText s))
       ∧ (∀ i d, descriptions_of items !! i = Some d →
                 value_at ws (cur + 2 + Z.of_nat i) 6 = Some (VText d))
       ∧ cur + 6 ≤ row_after df (pre ++ [k]) 1).
Proof.
  intros tax_rate. split_and!.
  - apply (unique_first_occurrence (map key_of (main_items df))).
  - intros k items. split; apply unique_first_occurrence.
  - apply generate_html_table_inv.
  - intros ws pre k post Hgen Hkeys cur items.
    pose proof (next_row_ge df cur k) as Hge. split_and!.
    + intros j s Hs.
      apply (sheet_value _ _ _ _ _ _ _ _ _ Hgen Hkeys); [fold cur; lia | lia |].
      intros b. by apply supplier_written.
    + intros i d Hd.
      apply (sheet_value _ _ _ _ _ _ _ _ _ Hgen Hkeys);
        [by eapply block_row_bounds | lia |].
      intros b. by apply description_written.
    + rewrite row_after_snoc. done.
Qed.

Lemma emission_in_first_occurrence_order_witness :
  ∃ ws,
    generate_excel_file two_groups 12 = Ok ws
    ∧ value_at ws 11 7 = Some (VText (Some "A"))
    ∧ value_at ws 13 6 = Some (VText (Some "Z")).
Proof.
  destruct (generate_excel_file two_groups 12) as [ws|e] eqn:E;
    [| vm_compute in E; discriminate].
  exists ws. split; [reflexivity |].
  destruct (emission_in_first_occurrence_order two_groups 12) as (_ & _ & _ & H).
  destruct (H ws [(Some "K1", Some "220V")] (Some "K2", Some "110V") [] E)
    as (Hs & Hd & _); [reflexivity |].
  split.
  - apply (Hs 0%nat (Some "A")). reflexivity.
  - apply (Hd 1%nat (Some "Z")). reflexivity.
Defined.

(** C1: for every group the dict of subtotals holds, for each supplier, the
    left-to-right sum of the supplier's looked-up prices over the group's
    descriptions (a missing cell counts 0), and the total row shows
    subtotal * (1 + tax_percent / 100) for each supplier.  For suppliers A, B,
    descriptions X, Y, prices 10, 20, 15, 5 and tax 12 the subtotals are 30 and
    20 and the totals shown are 33.60 and 22.40. *)
Theorem totals_correct :
  (∀ (items : DataFrame) (tax_percent : float) (body_rows : Z)
     (brand code power_type : cell) (html html' : string),
     items ≠ [] →
     let suppliers := suppliers_of items in
     let descriptions := descriptions_of items in
     let tax_rate := py_truediv (PyFloat tax_percent) (PyInt 100) in
     ∃ totals out,
       item_rows items suppliers descriptions body_rows brand code power_type html
       = Ok (totals, out)
       ∧ (∀ s, s ∈ suppliers →
               totals !! s
               = Some (foldl (λ acc d, py_add acc (lookup_price items s d))
                         (PyInt 0) descriptions))
       ∧ total_cells totals tax_rate suppliers html'
         = Ok (html'
               +:+ join (map (λ s, "<td>$"
                                     +:+ format_2f true
                                           (py_mul (subtotal items descriptions s)
                                              (py_add (PyInt 1) (PyFloat tax_rate)))
                                     +:+ "</td>") suppliers)))
  ∧ (let items := items_for_code two_by_two (Some "K1") (Some "220V") in
     let tax_rate := py_truediv (PyFloat 12) (PyInt 100) in
     group_keys two_by_two = [(Some "K1", Some "220V")]
     ∧ suppliers_of items = [Some "A"; Some "B"]
     ∧ descriptions_of items = [Some "X"; Some "Y"]
     ∧ lookup_price items (Some "A") (Some "X") = PyFloat 10
     ∧ lookup_price items (Some "A") (Some "Y") = PyFloat 20
     ∧ lookup_price items (Some "B") (Some "X") = PyFloat 15
     ∧ lookup_price items (Some "B") (Some "Y") = PyFloat 5
     ∧ subtotal items [Some "X"; Some "Y"] (Some "A") = PyFloat 30
     ∧ subtotal items [Some "X"; Some "Y"] (Some "B") = PyFloat 20
     ∧ format_2f true (final_total (PyFloat 30) tax_rate) = "33.60"
     ∧ format_2f true (final_total (PyFloat 20) tax_rate) = "22.40"
     ∧ generate_html_table two_by_two 12
       = Ok (html_head
             +:+ table_markup two_by_two 12 tax_rate (Some "K1", Some "220V")
             +:+ "</div>")
     ∧ join (map (λ s, price_td (final_total (subtotal items (descriptions_of items) s)
                                   tax_rate))
               (suppliers_of items))
       = "<td>$33.60</td><td>$22.40</td>").
Proof.
  split.
  - intros items tax_percent body_rows brand code power_type html html' Hne
      suppliers descriptions tax_rate.
    destruct (descriptions_nonempty items Hne) as (d0 & ds & Hd).
    unfold descriptions. rewrite Hd.
    destruct (item_rows_spec items suppliers d0 ds body_rows brand code
                power_type html (suppliers_NoDup items)) as (totals & Hrun & Hin).
    exists totals. eexists. split_and!; [exact Hrun | exact Hin |].
    apply (total_cells_spec _ _ _ _ _ Hin).
  - vm_compute. repeat split.
Qed.

Lemma totals_correct_witness :
  ∃ totals out,
    item_rows two_by_two (suppliers_of two_by_two) (descriptions_of two_by_two)
      4 (Some "Acme") (Some "K1") (Some "220V") EmptyString
    = Ok (totals, out)
    ∧ totals !! Some "A" = Some (PyFloat 30)
    ∧ totals !! Some "B" = Some (PyFloat 20).
Proof.
  destruct (proj1 totals_correct two_by_two 12%float 4 (Some "Acme") (Some "K1")
              (Some "220V") EmptyString EmptyString ltac:(discriminate))
    as (totals & out & Hrun & Hin & _).
  exists totals, out. split; [exact Hrun |]. split.
  - etransitivity; [apply (Hin (Some "A")); vm_compute; left | reflexivity].
  - etransitivity; [apply (Hin (Some "B")); vm_compute; right; left | reflexivity].
Defined.

(** C5, as amended: all groups lie on the one sheet, one block under the
    other; a block begins with its header row and ends with its total row, and
    the total row of a group is followed by exactly three blank rows, the
    header of the next group standing in the fourth row after it. *)
Theorem groups_three_blank_rows_apart (df : DataFrame) (tax_percent : float)
    (ws : gmap (Z * Z) Cell) (pre post : list key) (k : key) :
  generate_excel_file df tax_percent = Ok ws →
  group_keys df = pre ++ k :: post →
  let cur := row_after df pre 1 in
  let items := items_for_code df k.1 k.2 in
  let t := total_row_of items (descriptions_of items) cur in
  value_at ws (cur + 1) 2 = Some (VText (Some "Details"))
  ∧ value_at ws t 6 = Some (VText (Some "Total"))
  ∧ cur + 1 < t
  ∧ (∀ r, t < r ≤ t + 3 → row_is_blank ws r)
  ∧ (post ≠ [] →
     gap_after ws t 3 ∧ value_at ws (t + 4) 2 = Some (VText (Some "Details")))
  ∧ (post = [] → ∀ r, t < r → row_is_blank ws r).
Proof.
  intros Hgen Hkeys cur items t.
  pose proof (total_row_of_eq items (descriptions_of items) cur) as Ht.
  fold t in Ht.
  pose proof (extra_rows_cases items) as Hx.
  pose proof (next_row_eq df cur k) as Hnext. cbv zeta in Hnext.
  fold items in Hnext. fold t in Hnext.
  assert (Hlen : 0 ≤ len (descriptions_of items)) by (unfold len; lia).
  assert (Hblank : ∀ r, t < r ≤ t + 3 → row_is_blank ws r).
  { intros r Hr. by apply (gap_rows_blank _ _ _ _ _ _ _ Hgen Hkeys). }
  split_and!.
  - apply (sheet_value _ _ _ _ _ _ _ _ _ Hgen Hkeys); [fold cur; lia | lia |].
    intros b. apply details_written.
  - apply (sheet_value _ _ _ _ _ _ _ _ _ Hgen Hkeys); [fold cur; lia | lia |].
    intros b. apply total_written.
  - lia.
  - exact Hblank.
  - intros Hpost. destruct post as [|k' post']; [done |].
    assert (Hkeys' : group_keys df = (pre ++ [k]) ++ k' :: post').
    { rewrite Hkeys, <- app_assoc. done. }
    assert (Hnext_header :
              value_at ws (t + 4) 2 = Some (VText (Some "Details"))).
    { pose proof (next_row_ge df (row_after df (pre ++ [k]) 1) k') as Hge.
      pose proof (row_after_snoc df pre k 1) as Hsnoc. fold cur in Hsnoc.
      replace (t + 4) with (row_after df (pre ++ [k]) 1 + 1) by lia.
      apply (sheet_value _ _ _ _ _ _ _ _ _ Hgen Hkeys'); [lia | lia |].
      intros b. apply details_written. }
    split; [| done]. split; [done |].
    intros Hb. specialize (Hb 2). unfold value_at in Hnext_header.
    replace (t + 3 + 1) with (t + 4) in Hb by lia.
    rewrite Hb in Hnext_header. discriminate.
  - intros -> r Hr.
    by apply (rows_below_last_blank _ _ _ _ _ _ Hgen Hkeys).
Qed.

Lemma groups_three_blank_rows_apart_witness :
  ∃ ws,
    generate_excel_file two_groups 12 = Ok ws
    ∧ value_at ws 7 6 = Some (VText (Some "Total"))
    ∧ gap_after ws 7 3
    ∧ value_at ws 11 2 = Some (VText (Some "Details")).
Proof.
  destruct (generate_excel_file two_groups 12) as [ws|e] eqn:E;
    [| vm_compute in E; discriminate].
  exists ws. split; [reflexivity |].
  destruct (groups_three_blank_rows_apart two_groups 12 ws []
              [(Some "K2", Some "110V")] (Some "K1", Some "220V") E eq_refl)
    as (_ & Htotal & _ & _ & Hgap & _).
  destruct Hgap as [Hgap Hnext]; [discriminate |].
  split_and!; [exact Htotal | exact Hgap | exact Hnext].
Defined.

(** C5, as stated, fails: under the total row of the first of two groups the
    third row is blank as well, so the gap is not of two rows. *)
Lemma gap_is_not_two_rows :
  ∃ ws,
    generate_excel_file two_groups 12 = Ok ws
    ∧ value_at ws 7 6 = Some (VText (Some "Total"))
    ∧ ¬ gap_after ws 7 2.
Proof.
  eexists. split; [vm_compute; reflexivity |]. split; [vm_compute; reflexivity |].
  intros [_ Hn]. apply Hn.
  apply (gap_rows_blank two_groups 12 _ [] [(Some "K2", Some "110V")]
           (Some "K1", Some "220V") (7 + 2 + 1)).
  - vm_compute. reflexivity.
  - reflexivity.
  - by vm_compute.
Qed.

(** C2, as amended: for every cell of every group the price literal of the
    sheet's line formula (quantity cell times literal price, the quantity cell
    holding the literal 1) is the very number the markup renderer formats for
    that cell; the markup shows that number rounded to two decimals, so what
    it shows is within half a hundredth of the formula's price, not always
    equal to it. *)
Theorem line_formula_price_is_markup_price (df : DataFrame) (tax_percent : float)
    (ws : gmap (Z * Z) Cell) (pre post : list key) (k : key) (i j : nat)
    (d s : cell) :
  generate_excel_file df tax_percent = Ok ws →
  group_keys df = pre ++ k :: post →
  let tax_rate := py_truediv (PyFloat tax_percent) (PyInt 100) in
  let items := items_for_code df k.1 k.2 in
  descriptions_of items !! i = Some d →
  suppliers_of items !! j = Some s →
  let row := row_after df pre 1 + 2 + Z.of_nat i in
  let price := lookup_price items s d in
  value_at ws row 5 = Some (VNum (PyInt 1))
  ∧ value_at ws row (7 + Z.of_nat j)
    = Some (VFormula (EMul (ERef 5 row) (ENum price)))
  ∧ generate_html_table df tax_percent
    = Ok (html_head
          +:+ join (map (table_markup df tax_percent tax_rate) (group_keys df))
          +:+ "</div>")
  ∧ (∃ before after,
       table_markup df tax_percent tax_rate k
       = before +:+ price_tds items (suppliers_of items) d +:+ after)
  ∧ (∃ cells,
       price_tds items (suppliers_of items) d = join cells
       ∧ cells !! j = Some ("<td>$" +:+ format_2f true price +:+ "</td>"))
  ∧ (∀ q, exact_value price = Some q →
          ∃ shown, displayed_value price = Some shown
                   ∧ (Qabs (shown - q) <= 1 # 200)%Q).
Proof.
  intros Hgen Hkeys tax_rate items Hd Hs row price.
  pose proof (block_row_bounds df (row_after df pre 1) k i d Hd) as Hrow.
  split_and!.
  - apply (sheet_value _ _ _ _ _ _ _ _ _ Hgen Hkeys); [exact Hrow | lia |].
    intros b. by eapply quantity_written.
  - apply (sheet_value _ _ _ _ _ _ _ _ _ Hgen Hkeys); [exact Hrow | lia |].
    intros b. by apply formula_written.
  - apply generate_html_table_ok.
    unfold generate_excel_file in Hgen.
    destruct (for_each _ (group_keys df) (∅, 1)) as [st|e] eqn:E; [| discriminate].
    by eapply xlsx_groups_inv.
  - by eapply table_markup_row.
  - eexists. split; [reflexivity |]. rewrite lookup_map, Hs. reflexivity.
  - apply displayed_close.
Qed.

Lemma line_formula_price_is_markup_price_witness :
  ∃ ws,
    generate_excel_file two_groups 12 = Ok ws
    ∧ value_at ws 13 7 = Some (VFormula (EMul (ERef 5 13) (ENum (PyFloat 0.125)))).
Proof.
  destruct (generate_excel_file two_groups 12) as [ws|e] eqn:E;
    [| vm_compute in E; discriminate].
  exists ws. split; [reflexivity |].
  destruct (line_formula_price_is_markup_price two_groups 12 ws
              [(Some "K1", Some "220V")] [] (Some "K2", Some "110V")
              1%nat 0%nat (Some "Z") (Some "A") E eq_refl eq_refl eq_refl)
    as (_ & Hformula & _).
  exact Hformula.
Defined.

(** C2, as stated, fails for a price with three decimals: the formula holds
    0.125, the markup shows 0.12. *)
Lemma formula_price_is_not_the_displayed_number :
  ∃ ws html price,
    generate_excel_file eighth 12 = Ok ws
    ∧ value_at ws 3 5 = Some (VNum (PyInt 1))
    ∧ value_at ws 3 7 = Some (VFormula (EMul (ERef 5 3) (ENum price)))
    ∧ generate_html_table eighth 12 = Ok html
    ∧ html = html_head
             +:+ table_markup eighth 12 (py_truediv (PyFloat 12) (PyInt 100))
                   (Some "K1", Some "220V")
             +:+ "</div>"
    ∧ price_tds eighth [Some "A"] (Some "X") = "<td>$0.12</td>"
    ∧ (∃ q, exact_value price = Some q ∧ (q == 1 # 8)%Q)
    ∧ displayed_value price = Some (12 # 100)%Q
    ∧ ¬ (1 # 8 == 12 # 100)%Q.
Proof.
  eexists _, _, (PyFloat 0.125).
  split_and!; try (vm_compute; reflexivity).
  - eexists. split; vm_compute; reflexivity.
  - vm_compute. discriminate.
Qed.



(** C9: an upload of one or more PDFs whose count is not 3 yields the
    validation warning and nothing else, so no request is sent; a request is
    sent only for exactly 3 files (and only once the button is pressed), and
    then without a warning. *)
Theorem pdf_count_validation (POWER_AUTOMATE_URL : string)
    (b64encode : string → string) (load_csv : string → DataFrame)
    (power_automate : list (string * string) → Response)
    (pdfs : list UploadedFile) (clicked : bool) (ss : session_state) :
  let run :=
    pdf_section POWER_AUTOMATE_URL b64encode load_csv power_automate pdfs clicked ss in
  (pdfs ≠ [] → length pdfs ≠ 3%nat →
   run = ([st_warning "Please upload exactly 3 PDF files."], ss))
  ∧ (∀ e, e ∈ run.1 → is_post e = true → length pdfs = 3%nat ∧ clicked = true)
  ∧ (length pdfs = 3%nat → clicked = true →
     requests_post POWER_AUTOMATE_URL
       (map (λ pdf, (name pdf, b64encode (content pdf))) pdfs) 180 ∈ run.1
     ∧ ∀ e, e ∈ run.1 → is_warning e = false).
Proof.
  intros run. unfold run, pdf_section, len.
  destruct (Z.eqb_spec (Z.of_nat (length pdfs)) 3) as [H3 | H3].
  - assert (Hne : pdfs ≠ []) by (intros ->; simpl in H3; lia).
    rewrite bool_decide_false by done. simpl.
    split_and!.
    + intros _ Hlen. lia.
    + intros e He Hpost. split; [lia |].
      destruct clicked; [done |]. by apply elem_of_nil in He.
    + intros _ ->.
      destruct (negb (status_code _ =? 200)); simpl; split.
      * left.
      * intros e He. rewrite !elem_of_cons, elem_of_nil in He.
        destruct He as [-> | [-> | [-> | []]]]; done.
      * left.
      * intros e He. rewrite !elem_of_cons, elem_of_nil in He.
        destruct He as [-> | [-> | [-> | []]]]; done.
  - rewrite andb_false_r. simpl. split_and!.
    + intros Hne _. by rewrite bool_decide_false.
    + intros e He Hpost. destruct (negb (bool_decide (pdfs = []))); simpl in He.
      * apply list_elem_of_singleton in He as ->. discriminate.
      * by apply elem_of_nil in He.
    + intros Hlen. lia.
Qed.

Lemma pdf_count_validation_witness :
  pdf_section "https://flow.example/invoke" (λ s, s) (λ _, [])
    (λ _, {| status_code := 200; csv := EmptyString |})
    [ {| name := "a.pdf"; content := "A" |}; {| name := "b.pdf"; content := "B" |} ]
    true
    {| df := None; current_job_path := None; job_loaded_from_queue := false |}
  = ([st_warning "Please upload exactly 3 PDF files."],
     {| df := None; current_job_path := None; job_loaded_from_queue := false |}).
Proof.
  apply (pdf_count_validation "https://flow.example/invoke" (λ s, s) (λ _, [])
           (λ _, {| status_code := 200; csv := EmptyString |})
           [ {| name := "a.pdf"; content := "A" |};
             {| name := "b.pdf"; content := "B" |} ]
           true
           {| df := None; current_job_path := None;
              job_loaded_from_queue := false |}).
  - discriminate.
  - simpl. lia.
Defined.


(** * Further properties of the renderers *)

(** ** When the renderers fail *)














(** ** Rows that do not count *)

Lemma filter_filter_implies {A : Type} (f g : A → bool) (l : list A) :
  (∀ x, f x = true → g x = true) →
  List.filter f (List.filter g l) = List.filter f l.
Proof.
  intros Himp. induction l as [|x l IH]; [done |]. simpl.
  destruct (g x) eqn:Hg; simpl.
  - by rewrite IH.
  - destruct (f x) eqn:Hf; [| done]. apply Himp in Hf. congruence.
Qed.

Lemma for_each_ext {A S : Type} (f g : S → A → result S) (l : list A) (s : S) :
  (∀ s x, f s x = g s x) → for_each f l s = for_each g l s.
Proof.
  intros Hfg. revert s. induction l as [|x l IH]; intros s; [done |].
  rewrite !for_each_cons, Hfg. destruct (g s x); [| done].
  rewrite !bind_Ok. apply IH.
Qed.

Lemma main_item_counted (r : Row) : is_main_item r = true → counted r = true.
Proof.
  intros H. apply is_main_item_iff in H as [Ht _].
  apply isin_item_subitem. by left.
Qed.

Lemma in_group_counted (code power_type : cell) (r : Row) :
  in_group code power_type r = true → counted r = true.
Proof.
  intros H. apply in_group_iff in H as (_ & _ & Ht).
  by apply isin_item_subitem.
Qed.

Lemma group_keys_counted (d : DataFrame) :
  group_keys (List.filter counted d) = group_keys d.
Proof.
  unfold group_keys, main_items.
  by rewrite (filter_filter_implies _ _ _ main_item_counted).
Qed.

Lemma items_for_code_counted (d : DataFrame) (code power_type : cell) :
  items_for_code (List.filter counted d) code power_type
  = items_for_code d code power_type.
Proof.
  unfold items_for_code.
  apply filter_filter_implies. apply in_group_counted.
Qed.

(** X3: rows whose type is neither "item" nor "subitem" have no influence:
    dropping them from the table changes neither the markup nor the sheet,
    nor whether the call fails. *)
Theorem other_rows_are_ignored (d : DataFrame) (tax_percent : float) :
  generate_html_table (List.filter counted d) tax_percent
  = generate_html_table d tax_percent
  ∧ generate_excel_file (List.filter counted d) tax_percent
    = generate_excel_file d tax_percent.
Proof.
  unfold generate_html_table, generate_excel_file.
  rewrite group_keys_counted. split.
  - f_equal. apply for_each_ext. intros html [code power_type].
    unfold html_group. by rewrite items_for_code_counted.
  - f_equal. apply for_each_ext. intros [ws cur] [code power_type].
    unfold xlsx_group. by rewrite items_for_code_counted.
Qed.



(** ** Cells that are missing in a counted row *)

Lemma eq_cell_missing_r (a : cell) : eq_cell a None = false.
Proof. by destruct a. Qed.






(** ** A price that is not a number *)








(** ** The fields of a cell after a run of statements *)

Lemma cell_at_ws_cell (ws : gmap (Z * Z) Cell) (r' c' r c : Z) (w : write) :
  cell_at (ws_cell ws (r', c', w)) r c
  = if decide ((r', c') = (r, c)) then apply_write w (cell_at ws r c)
    else cell_at ws r c.
Proof.
  unfold cell_at, ws_cell. destruct (decide ((r', c') = (r, c))) as [E | Hne].
  - rewrite E. by rewrite lookup_insert_eq.
  - by rewrite lookup_insert_ne.
Qed.

Lemma run_writes_snoc (ops : list op) (o : op) (ws : gmap (Z * Z) Cell) :
  run_writes (ops ++ [o]) ws = ws_cell (run_writes ops ws) o.
Proof. by rewrite run_writes_app. Qed.

Section Field.

Context {X : Type} (proj : Cell → X) (sel : write → option X).
Hypothesis proj_apply : ∀ w c, proj (apply_write w c) = default (proj c) (sel w).

(** Statements that do not assign the field leave it as it was. *)
Lemma field_unset (ops : list op) (ws : gmap (Z * Z) Cell) (r c : Z) :
  (∀ w, (r, c, w) ∈ ops → sel w = None) →
  proj (cell_at (run_writes ops ws) r c) = proj (cell_at ws r c).
Proof.
  induction ops as [|[[r' c'] w] ops IH] using rev_ind; intros Hno; [done |].
  rewrite run_writes_snoc, cell_at_ws_cell.
  assert (Hops : ∀ w0, (r, c, w0) ∈ ops → sel w0 = None).
  { intros w0 Hw0. apply Hno. apply elem_of_app. by left. }
  destruct (decide ((r', c') = (r, c))) as [E | Hne]; [| by apply IH].
  injection E as -> ->. rewrite proj_apply, (Hno w).
  - by apply IH.
  - apply elem_of_app. right. left.
Qed.

(** A field that is assigned, and only ever to one content, has it. *)
Lemma field_written (ops : list op) (ws : gmap (Z * Z) Cell) (r c : Z) (x : X) :
  (∃ w, (r, c, w) ∈ ops ∧ sel w = Some x) →
  (∀ w x', (r, c, w) ∈ ops → sel w = Some x' → x' = x) →
  proj (cell_at (run_writes ops ws) r c) = x.
Proof.
  induction ops as [|[[r' c'] w] ops IH] using rev_ind; intros (w0 & Hin & Hsel) Huniq.
  - by apply elem_of_nil in Hin.
  - rewrite run_writes_snoc, cell_at_ws_cell.
    assert (Hops : ∀ w1 x', (r, c, w1) ∈ ops → sel w1 = Some x' → x' = x).
    { intros w1 x' Hw1. apply Huniq. apply elem_of_app. by left. }
    rewrite elem_of_app, list_elem_of_singleton in Hin.
    destruct (decide ((r', c') = (r, c))) as [E | Hne].
    + injection E as -> ->. rewrite proj_apply.
      destruct (sel w) as [x'|] eqn:Hw.
      * simpl. apply (Huniq w); [| done]. apply elem_of_app. right. left.
      * simpl. apply IH; [| done]. destruct Hin as [Hin | [= <-]]; [eauto |].
        congruence.
    + apply IH; [| done]. destruct Hin as [Hin | [= <- <- _]]; [eauto | done].
Qed.

End Field.

Lemma value_apply (w : write) (c : Cell) :
  c_value (apply_write w c) = default (c_value c) (sets_value w).
Proof. by destruct w. Qed.

Lemma fill_apply (w : write) (c : Cell) :
  c_fill (apply_write w c) = default (c_fill c) (sets_fill w).
Proof. by destruct w. Qed.

Lemma border_apply (w : write) (c : Cell) :
  c_border (apply_write w c) = default (c_border c) (sets_border w).
Proof. by destruct w. Qed.

Lemma format_apply (w : write) (c : Cell) :
  c_number_format (apply_write w c) = default (c_number_format c) (sets_format w).
Proof. by destruct w. Qed.

Lemma value_at_cell_at (ws : gmap (Z * Z) Cell) (r c : Z) :
  value_at ws r c = c_value (cell_at ws r c).
Proof. unfold value_at, cell_at. by destruct (ws !! (r, c)). Qed.

(** A cell that a statement addresses exists afterwards. *)
Lemma run_writes_touched (ops : list op) (ws : gmap (Z * Z) Cell) (r c : Z) :
  (∃ w, (r, c, w) ∈ ops) → is_Some (run_writes ops ws !! (r, c)).
Proof.
  induction ops as [|[[r' c'] w] ops IH] using rev_ind; intros (w0 & Hin).
  - by apply elem_of_nil in Hin.
  - rewrite run_writes_snoc. unfold ws_cell.
    destruct (decide ((r', c') = (r, c))) as [E | Hne].
    + rewrite E, lookup_insert_eq. eauto.
    + rewrite lookup_insert_ne by done. apply IH.
      rewrite elem_of_app, list_elem_of_singleton in Hin.
      destruct Hin as [Hin | [= <- <- _]]; [eauto | done].
Qed.

(** ** Every statement of a group, by place and kind *)

Ltac offs := unfold start_row_offset, start_col_offset in *.

Lemma len_lookup {A : Type} (l : list A) (i : nat) (x : A) :
  l !! i = Some x → 0 ≤ Z.of_nat i < len l.
Proof. intros H. apply lookup_lt_Some in H. unfold len. lia. Qed.

Lemma lookup_len {A : Type} (l : list A) (z : Z) :
  0 ≤ z < len l → ∃ x, l !! Z.to_nat z = Some x.
Proof.
  unfold len. intros H. apply lookup_lt_is_Some. lia.
Qed.

Lemma header_writes_shape (suppliers : list cell) (start_row r c : Z) (w : write) :
  (r, c, w) ∈ header_writes suppliers start_row →
  r = start_row + 1 ∧ 2 ≤ c ≤ 6 + len suppliers
  ∧ (is_value w ∨ w = SetFill header_fill).
Proof.
  assert (Hlen : 0 ≤ len suppliers) by (unfold len; lia).
  unfold header_writes. offs. rewrite !elem_of_app. intros [H | [H | H]].
  - pick_cons H; injection H as -> -> ->; split_and!; try lia; left; by eexists.
  - apply elem_of_lookup_imap in H as (j & s & [= -> -> ->] & Hs).
    apply len_lookup in Hs. split_and!; try lia. left. by eexists.
  - apply elem_of_map in H as (col & Hcol & [= -> -> ->]).
    apply elem_of_range in Hcol. split_and!; try lia. by right.
Qed.

Lemma identity_writes_shape (brand code power_type : cell) (data_row r c : Z)
    (w : write) :
  (r, c, w) ∈ identity_writes brand code power_type data_row →
  (r = data_row + 1 ∧ c = 2 ∧ w = SetValue (VText (Some "Brand")))
  ∨ (r = data_row + 1 ∧ c = 3 ∧ w = SetValue (VText brand))
  ∨ (r = data_row + 2 ∧ c = 2 ∧ w = SetValue (VText (Some "Code")))
  ∨ (r = data_row + 2 ∧ c = 3 ∧ w = SetValue (VText code))
  ∨ (r = data_row + 3 ∧ c = 2 ∧ w = SetValue (VText (Some "Power Type")))
  ∨ (r = data_row + 3 ∧ c = 3 ∧ w = SetValue (VText power_type)).
Proof.
  unfold identity_writes. offs. intros H.
  pick_cons H; injection H as -> -> ->.
  - left. split_and!; (lia || done).
  - right. left. split_and!; (lia || done).
  - do 2 right. left. split_and!; (lia || done).
  - do 3 right. left. split_and!; (lia || done).
  - do 4 right. left. split_and!; (lia || done).
  - do 5 right. split_and!; (lia || done).
Qed.

Lemma line_writes_shape (items : DataFrame) (suppliers : list cell) (data_row : Z)
    (i : nat) (desc : cell) (r c : Z) (w : write) :
  (r, c, w) ∈ line_writes items suppliers data_row i desc →
  r = data_row + Z.of_nat i + 1
  ∧ ((5 ≤ c ≤ 6 ∧ is_value w)
     ∨ (7 ≤ c ≤ 6 + len suppliers
        ∧ (is_value w ∨ w = SetNumberFormat FORMAT_CURRENCY_USD_SIMPLE))).
Proof.
  unfold line_writes. offs. rewrite elem_of_app. intros [H | H].
  - pick_cons H; injection H as -> -> ->; (split; [lia |]); left;
      (split; [lia | by eexists]).
  - apply elem_of_concat in H as (l & Hl & H).
    apply elem_of_lookup_imap in Hl as (j & s & -> & Hs). apply len_lookup in Hs.
    pick_cons H; injection H as -> -> ->; (split; [lia |]); right;
      (split; [lia |]); [left; by eexists | by right].
Qed.

Lemma tax_writes_shape (suppliers : list cell) (tax_rate : float) (tax_row r c : Z)
    (w : write) :
  (r, c, w) ∈ tax_writes suppliers tax_rate tax_row →
  r = tax_row
  ∧ ((c = 6 ∧ is_value w)
     ∨ (7 ≤ c ≤ 6 + len suppliers
        ∧ (w = SetValue (VNum (PyFloat tax_rate))
           ∨ w = SetNumberFormat FORMAT_PERCENTAGE_00))).
Proof.
  unfold tax_writes. offs. intros H. apply elem_of_cons in H as [H | H].
  - injection H as -> -> ->. split; [done |]. left. split; [lia | by eexists].
  - apply elem_of_concat in H as (l & Hl & H).
    apply elem_of_map in Hl as (i & Hi & ->). apply elem_of_range in Hi.
    pick_cons H; injection H as -> -> ->; (split; [done |]); right;
      (split; [lia |]); [by left | by right].
Qed.

Lemma total_writes_shape (suppliers : list cell) (first_item_row last_item_row
    tax_row total_row r c : Z) (w : write) :
  (r, c, w)
  ∈ total_writes suppliers first_item_row last_item_row tax_row total_row →
  r = total_row
  ∧ ((c = 6 ∧ (is_value w ∨ w = SetFill total_fill))
     ∨ (7 ≤ c ≤ 6 + len suppliers
        ∧ (w = SetValue
                 (VFormula (EMul (ESum c first_item_row last_item_row)
                              (EAdd (ENum (PyInt 1)) (ERef c tax_row))))
           ∨ w = SetNumberFormat FORMAT_CURRENCY_USD_SIMPLE
           ∨ w = SetFill total_fill))).
Proof.
  unfold total_writes. offs. rewrite elem_of_app. intros [H | H].
  - pick_cons H; injection H as -> -> ->; (split; [done |]); left;
      (split; [lia |]); [left; by eexists | by right].
  - apply elem_of_concat in H as (l & Hl & H).
    apply elem_of_map in Hl as (i & Hi & ->). apply elem_of_range in Hi.
    pick_cons H; injection H as -> -> ->; (split; [done |]); right;
      (split; [lia |]); [by left | right; by left | right; by right].
Qed.

Lemma border_writes_shape (first_row last_row first_col last_col r c : Z)
    (w : write) :
  (r, c, w) ∈ border_writes first_row last_row first_col last_col →
  first_row ≤ r ≤ last_row ∧ first_col ≤ c ≤ last_col
  ∧ w = SetBorder (outline first_row last_row first_col last_col r c).
Proof.
  unfold border_writes. intros H.
  apply elem_of_concat in H as (l & Hl & H).
  apply elem_of_map in Hl as (r0 & Hr & ->). apply elem_of_range in Hr.
  apply elem_of_map in H as (c0 & Hc & [= -> -> ->]). apply elem_of_range in Hc.
  split_and!; (lia || done).
Qed.

Lemma border_written (first_row last_row first_col last_col r c : Z) :
  first_row ≤ r ≤ last_row → first_col ≤ c ≤ last_col →
  (r, c, SetBorder (outline first_row last_row first_col last_col r c))
  ∈ border_writes first_row last_row first_col last_col.
Proof.
  intros Hr Hc. unfold border_writes. apply elem_of_concat. eexists. split.
  - apply elem_of_map. exists r. split; [| reflexivity]. apply elem_of_range. lia.
  - apply elem_of_map. exists c. split; [| reflexivity]. apply elem_of_range. lia.
Qed.

Lemma group_writes_cases (items : DataFrame) (suppliers descriptions : list cell)
    (b code power_type : cell) (tax_rate : float) (cur r c : Z) (w : write) :
  (r, c, w)
  ∈ group_writes items suppliers descriptions b code power_type tax_rate cur →
  let n := len suppliers in
  let tax_row := tax_row_of items descriptions cur in
  (r = cur + 1 ∧ 2 ≤ c ≤ 6 + n ∧ (is_value w ∨ w = SetFill header_fill))
  ∨ (cur + 2 ≤ r ≤ cur + 4 ∧ 2 ≤ c ≤ 3 ∧ is_value w)
  ∨ (cur + 2 ≤ r ≤ cur + 1 + len descriptions ∧ 5 ≤ c ≤ 6 ∧ is_value w)
  ∨ (cur + 2 ≤ r ≤ cur + 1 + len descriptions ∧ 7 ≤ c ≤ 6 + n
     ∧ (is_value w ∨ w = SetNumberFormat FORMAT_CURRENCY_USD_SIMPLE))
  ∨ (r = tax_row ∧ c = 6 ∧ is_value w)
  ∨ (r = tax_row ∧ 7 ≤ c ≤ 6 + n
     ∧ (is_value w ∨ w = SetNumberFormat FORMAT_PERCENTAGE_00))
  ∨ (r = tax_row + 1 ∧ c = 6 ∧ (is_value w ∨ w = SetFill total_fill))
  ∨ (r = tax_row + 1 ∧ 7 ≤ c ≤ 6 + n
     ∧ (is_value w ∨ w = SetNumberFormat FORMAT_CURRENCY_USD_SIMPLE
        ∨ w = SetFill total_fill))
  ∨ (cur + 1 ≤ r ≤ tax_row + 1 ∧ 2 ≤ c ≤ 6 + n
     ∧ w = SetBorder (outline (cur + 1) (tax_row + 1) 2 (6 + n) r c)).
Proof.
  intros H n tax_row. unfold group_writes in H. fold tax_row in H.
  rewrite !elem_of_app in H. destruct H as [H | [H | [H | [H | [H | H]]]]].
  - left. by apply header_writes_shape in H.
  - right. left. apply identity_writes_shape in H.
    destruct H as [H | [H | [H | [H | [H | H]]]]];
      destruct H as (-> & -> & ->); (split_and!; [lia .. | by eexists]).
  - apply elem_of_concat in H as (l & Hl & H).
    apply elem_of_lookup_imap in Hl as (i & d & -> & Hd). apply len_lookup in Hd.
    apply line_writes_shape in H as [-> [[Hc Hw] | [Hc Hw]]].
    + do 2 right. left. split_and!; (lia || done).
    + do 3 right. left. split_and!; (lia || done).
  - apply tax_writes_shape in H as [-> [[-> Hw] | [Hc Hw]]].
    + do 4 right. left. done.
    + do 5 right. left. split_and!; [done | lia | lia |].
      destruct Hw as [-> | ->]; [left; by eexists | by right].
  - apply total_writes_shape in H as [-> [[-> Hw] | [Hc Hw]]].
    + do 6 right. left. done.
    + do 7 right. left. split_and!; [done | lia | lia |].
      destruct Hw as [-> | [-> | ->]]; [left; by eexists | right; by left | right; by right].
  - do 8 right. offs. apply border_writes_shape in H as (Hr & Hc & ->).
    split_and!; try lia.
    replace (1 + 1) with 2 by lia.
    replace (5 + len suppliers + 1) with (6 + n) by (unfold n; lia). done.
Qed.

Lemma header_fill_written (items : DataFrame) (suppliers descriptions : list cell)
    (b code power_type : cell) (tax_rate : float) (cur c : Z) :
  2 ≤ c ≤ 6 + len suppliers →
  (cur + 1, c, SetFill header_fill)
  ∈ group_writes items suppliers descriptions b code power_type tax_rate cur.
Proof.
  intros Hc. unfold group_writes, header_writes. offs.
  apply elem_of_app. left. rewrite !elem_of_app. right. right.
  apply elem_of_map. exists c. split; [| done]. apply elem_of_range. lia.
Qed.

Lemma total_fill_written (items : DataFrame) (suppliers descriptions : list cell)
    (b code power_type : cell) (tax_rate : float) (cur c : Z) :
  6 ≤ c ≤ 6 + len suppliers →
  (total_row_of items descriptions cur, c, SetFill total_fill)
  ∈ group_writes items suppliers descriptions b code power_type tax_rate cur.
Proof.
  intros Hc. unfold group_writes, total_writes, total_row_of. offs.
  rewrite !elem_of_app. do 4 right. left.
  destruct (decide (c = 6)) as [-> | Hne].
  - left. right. left.
  - right. apply elem_of_concat. eexists. split.
    + apply elem_of_map. exists (c - 7). split; [| reflexivity].
      apply elem_of_range. lia.
    + replace (6 + (c - 7) + 1) with c by lia. do 2 right. left.
Qed.

Lemma total_formula_written (items : DataFrame) (suppliers descriptions : list cell)
    (b code power_type : cell) (tax_rate : float) (cur c : Z) :
  7 ≤ c ≤ 6 + len suppliers →
  let tax_row := tax_row_of items descriptions cur in
  (tax_row + 1, c,
   SetValue (VFormula (EMul (ESum c (cur + 2) (tax_row - 1))
                         (EAdd (ENum (PyInt 1)) (ERef c tax_row)))))
  ∈ group_writes items suppliers descriptions b code power_type tax_rate cur.
Proof.
  intros Hc tax_row. unfold group_writes, total_writes. fold tax_row. offs.
  rewrite !elem_of_app. do 4 right. left. right.
  apply elem_of_concat. eexists. split.
  - apply elem_of_map. exists (c - 7). split; [| reflexivity].
    apply elem_of_range. lia.
  - replace (6 + (c - 7) + 1) with c by lia.
    replace (cur + 1 + 1) with (cur + 2) by lia. left.
Qed.

Lemma total_format_written (items : DataFrame) (suppliers descriptions : list cell)
    (b code power_type : cell) (tax_rate : float) (cur c : Z) :
  7 ≤ c ≤ 6 + len suppliers →
  (total_row_of items descriptions cur, c,
   SetNumberFormat FORMAT_CURRENCY_USD_SIMPLE)
  ∈ group_writes items suppliers descriptions b code power_type tax_rate cur.
Proof.
  intros Hc. unfold group_writes, total_writes, total_row_of. offs.
  rewrite !elem_of_app. do 4 right. left. right.
  apply elem_of_concat. eexists. split.
  - apply elem_of_map. exists (c - 7). split; [| reflexivity].
    apply elem_of_range. lia.
  - replace (6 + (c - 7) + 1) with c by lia. right. left.
Qed.

Lemma tax_value_written (items : DataFrame) (suppliers descriptions : list cell)
    (b code power_type : cell) (tax_rate : float) (cur c : Z) :
  7 ≤ c ≤ 6 + len suppliers →
  (tax_row_of items descriptions cur, c, SetValue (VNum (PyFloat tax_rate)))
  ∈ group_writes items suppliers descriptions b code power_type tax_rate cur.
Proof.
  intros Hc. unfold group_writes, tax_writes. offs.
  rewrite !elem_of_app. do 3 right. left. right.
  apply elem_of_concat. eexists. split.
  - apply elem_of_map. exists (c - 7). split; [| reflexivity].
    apply elem_of_range. lia.
  - replace (6 + (c - 7) + 1) with c by lia. left.
Qed.

Lemma tax_format_written (items : DataFrame) (suppliers descriptions : list cell)
    (b code power_type : cell) (tax_rate : float) (cur c : Z) :
  7 ≤ c ≤ 6 + len suppliers →
  (tax_row_of items descriptions cur, c, SetNumberFormat FORMAT_PERCENTAGE_00)
  ∈ group_writes items suppliers descriptions b code power_type tax_rate cur.
Proof.
  intros Hc. unfold group_writes, tax_writes. offs.
  rewrite !elem_of_app. do 3 right. left. right.
  apply elem_of_concat. eexists. split.
  - apply elem_of_map. exists (c - 7). split; [| reflexivity].
    apply elem_of_range. lia.
  - replace (6 + (c - 7) + 1) with c by lia. right. left.
Qed.

Lemma line_format_written (items : DataFrame) (suppliers descriptions : list cell)
    (b code power_type : cell) (tax_rate : float) (cur r c : Z) :
  cur + 2 ≤ r ≤ cur + 1 + len descriptions → 7 ≤ c ≤ 6 + len suppliers →
  (r, c, SetNumberFormat FORMAT_CURRENCY_USD_SIMPLE)
  ∈ group_writes items suppliers descriptions b code power_type tax_rate cur.
Proof.
  intros Hr Hc.
  destruct (lookup_len descriptions (r - cur - 2)) as [d Hd]; [lia |].
  destruct (lookup_len suppliers (c - 7)) as [s Hs]; [lia |].
  unfold group_writes. rewrite !elem_of_app. do 2 right. left.
  apply elem_of_concat. eexists. split.
  - apply elem_of_lookup_imap. eexists _, d. split; [reflexivity | exact Hd].
  - unfold line_writes. offs. apply elem_of_app. right.
    apply elem_of_concat. eexists. split.
    + apply elem_of_lookup_imap. eexists _, s. split; [reflexivity | exact Hs].
    + replace (cur + 1 + Z.of_nat (Z.to_nat (r - cur - 2)) + 1) with r by lia.
      replace (6 + Z.of_nat (Z.to_nat (c - 7)) + 1) with c by lia.
      right. left.
Qed.

Lemma line_formula_at (items : DataFrame) (suppliers descriptions : list cell)
    (b code power_type : cell) (tax_rate : float) (cur r c : Z) :
  cur + 2 ≤ r ≤ cur + 1 + len descriptions → 7 ≤ c ≤ 6 + len suppliers →
  ∃ s d,
    suppliers !! Z.to_nat (c - 7) = Some s
    ∧ descriptions !! Z.to_nat (r - cur - 2) = Some d
    ∧ (r, c, SetValue (VFormula (EMul (ERef 5 r) (ENum (lookup_price items s d)))))
      ∈ group_writes items suppliers descriptions b code power_type tax_rate cur.
Proof.
  intros Hr Hc.
  destruct (lookup_len descriptions (r - cur - 2)) as [d Hd]; [lia |].
  destruct (lookup_len suppliers (c - 7)) as [s Hs]; [lia |].
  exists s, d. split_and!; [done | done |].
  pose proof (formula_written items suppliers descriptions b code power_type
                tax_rate cur _ _ d s Hd Hs) as H. cbv zeta in H.
  replace (cur + 2 + Z.of_nat (Z.to_nat (r - cur - 2))) with r in H by lia.
  replace (7 + Z.of_nat (Z.to_nat (c - 7))) with c in H by lia. exact H.
Qed.

Lemma group_border_written (items : DataFrame) (suppliers descriptions : list cell)
    (b code power_type : cell) (tax_rate : float) (cur r c : Z) :
  let t := total_row_of items descriptions cur in
  cur + 1 ≤ r ≤ t → 2 ≤ c ≤ 6 + len suppliers →
  (r, c, SetBorder (outline (cur + 1) t 2 (6 + len suppliers) r c))
  ∈ group_writes items suppliers descriptions b code power_type tax_rate cur.
Proof.
  intros t Hr Hc. unfold group_writes. rewrite !elem_of_app. do 5 right.
  offs. fold (total_row_of items descriptions cur). fold t.
  replace (6 + len suppliers) with (5 + len suppliers + 1) by lia.
  replace 2 with (1 + 1) at 1 by lia.
  apply border_written; lia.
Qed.

Ltac by_cases H :=
  apply group_writes_cases in H; cbv zeta in H; unfold is_value in H;
  destruct H as [H | [H | [H | [H | [H | [H | [H | [H | H]]]]]]]];
  repeat match goal with
         | H : _ ∧ _ |- _ => destruct H
         | H : _ ∨ _ |- _ => destruct H
         | H : ∃ _, _ |- _ => destruct H
         end;
  try discriminate; simplify_eq.

Lemma group_fills (items : DataFrame) (suppliers descriptions : list cell)
    (b code power_type : cell) (tax_rate : float) (cur r c : Z) (f : fill) :
  (r, c, SetFill f)
  ∈ group_writes items suppliers descriptions b code power_type tax_rate cur →
  (r = cur + 1 ∧ 2 ≤ c ≤ 6 + len suppliers ∧ f = header_fill)
  ∨ (r = total_row_of items descriptions cur ∧ 6 ≤ c ≤ 6 + len suppliers
     ∧ f = total_fill).
Proof.
  intros H. assert (Hlen : 0 ≤ len suppliers) by (unfold len; lia).
  unfold total_row_of. by_cases H.
  - left. split_and!; (lia || done).
  - right. split_and!; (lia || done).
  - right. split_and!; (lia || done).
Qed.

Lemma group_formats (items : DataFrame) (suppliers descriptions : list cell)
    (b code power_type : cell) (tax_rate : float) (cur r c : Z) (f : number_format) :
  (r, c, SetNumberFormat f)
  ∈ group_writes items suppliers descriptions b code power_type tax_rate cur →
  7 ≤ c ≤ 6 + len suppliers
  ∧ ((cur + 2 ≤ r ≤ cur + 1 + len descriptions ∧ f = FORMAT_CURRENCY_USD_SIMPLE)
     ∨ (r = tax_row_of items descriptions cur ∧ f = FORMAT_PERCENTAGE_00)
     ∨ (r = total_row_of items descriptions cur ∧ f = FORMAT_CURRENCY_USD_SIMPLE)).
Proof.
  intros H. assert (Hlen : 0 ≤ len suppliers) by (unfold len; lia).
  unfold total_row_of. by_cases H.
  - split; [lia |]. left. split; (lia || done).
  - split; [lia |]. right. left. split; (lia || done).
  - split; [lia |]. right. right. split; (lia || done).
Qed.

Lemma group_borders (items : DataFrame) (suppliers descriptions : list cell)
    (b code power_type : cell) (tax_rate : float) (cur r c : Z) (e : Border) :
  (r, c, SetBorder e)
  ∈ group_writes items suppliers descriptions b code power_type tax_rate cur →
  e = outline (cur + 1) (total_row_of items descriptions cur) 2
        (6 + len suppliers) r c.
Proof.
  intros H. assert (Hlen : 0 ≤ len suppliers) by (unfold len; lia).
  unfold total_row_of. by_cases H. done.
Qed.

Lemma group_columns (items : DataFrame) (suppliers descriptions : list cell)
    (b code power_type : cell) (tax_rate : float) (cur r c : Z) (w : write) :
  (r, c, w)
  ∈ group_writes items suppliers descriptions b code power_type tax_rate cur →
  2 ≤ c ≤ 6 + len suppliers.
Proof.
  intros H. assert (Hlen : 0 ≤ len suppliers) by (unfold len; lia).
  by_cases H; lia.
Qed.

Lemma run_writes_created (ops : list op) (ws : gmap (Z * Z) Cell) (r c : Z) :
  is_Some (run_writes ops ws !! (r, c)) →
  is_Some (ws !! (r, c)) ∨ ∃ w, (r, c, w) ∈ ops.
Proof.
  induction ops as [|[[r' c'] w] ops IH] using rev_ind; intros H; [by left |].
  rewrite run_writes_snoc in H. unfold ws_cell in H.
  destruct (decide ((r', c') = (r, c))) as [[= -> ->] | Hne].
  - right. exists w. apply elem_of_app. right. left.
  - rewrite lookup_insert_ne in H by done.
    destruct (IH H) as [? | [w0 Hw0]]; [by left |].
    right. exists w0. apply elem_of_app. by left.
Qed.

(** A cell of a block on the finished sheet, read off the group's statements. *)
Lemma sheet_cell (d : DataFrame) (tax_percent : float) (ws : gmap (Z * Z) Cell)
    (pre post : list key) (k : key) (r c : Z) :
  generate_excel_file d tax_percent = Ok ws →
  group_keys d = pre ++ k :: post →
  let tax_rate := py_truediv (PyFloat tax_percent) (PyInt 100) in
  let cur := row_after d pre 1 in
  let items := items_for_code d k.1 k.2 in
  cur < r ≤ next_row d cur k →
  ∃ b,
    brand_of items = Ok b
    ∧ descriptions_of items ≠ []
    ∧ ws !! (r, c)
      = run_writes
          (group_writes items (suppliers_of items) (descriptions_of items)
             b k.1 k.2 tax_rate cur) ∅ !! (r, c)
    ∧ cell_at ws r c
      = cell_at
          (run_writes
             (group_writes items (suppliers_of items) (descriptions_of items)
                b k.1 k.2 tax_rate cur) ∅) r c.
Proof.
  intros Hgen Hkeys tax_rate cur items Hr.
  destruct (sheet_block _ _ _ _ _ _ Hgen Hkeys) as (b & Hb & Hblock).
  exists b. split_and!; [done | by eapply brand_descriptions | by apply Hblock |].
  unfold cell_at. by rewrite Hblock.
Qed.

Lemma block_geometry (d : DataFrame) (cur : Z) (k : key) :
  let items := items_for_code d k.1 k.2 in
  descriptions_of items ≠ [] →
  let tax_row := tax_row_of items (descriptions_of items) cur in
  let t := total_row_of items (descriptions_of items) cur in
  t = tax_row + 1
  ∧ cur + 1 + len (descriptions_of items) < tax_row
  ∧ tax_row ≤ cur + 4 + len (descriptions_of items)
  ∧ 1 ≤ len (descriptions_of items)
  ∧ 0 ≤ len (suppliers_of items)
  ∧ next_row d cur k = t + 3.
Proof.
  intros items Hne tax_row t.
  pose proof (extra_rows_cases items) as Hx. pose proof (len_pos _ Hne) as Hn.
  unfold t, tax_row, next_row, total_row_of, items in *.
  rewrite !tax_row_of_eq. unfold len in *. lia.
Qed.

(** ** Fills, borders and number formats on the finished sheet *)

(** X7: within the rows of a group's block (and the three rows under it) the
    header fill lies on the header row, from the "Details" column to the last
    supplier column, the total fill lies on the total row, from the "Items"
    column to the last supplier column, and no other cell has a fill. *)
Theorem fills_mark_header_and_total (d : DataFrame) (tax_percent : float)
    (ws : gmap (Z * Z) Cell) (pre post : list key) (k : key) (r c : Z) :
  generate_excel_file d tax_percent = Ok ws →
  group_keys d = pre ++ k :: post →
  let cur := row_after d pre 1 in
  let items := items_for_code d k.1 k.2 in
  let n := len (suppliers_of items) in
  let t := total_row_of items (descriptions_of items) cur in
  cur < r ≤ next_row d cur k →
  (r = cur + 1 → 2 ≤ c ≤ 6 + n → fill_at ws r c = Some header_fill)
  ∧ (r = t → 6 ≤ c ≤ 6 + n → fill_at ws r c = Some total_fill)
  ∧ (¬ (r = cur + 1 ∧ 2 ≤ c ≤ 6 + n) → ¬ (r = t ∧ 6 ≤ c ≤ 6 + n) →
     fill_at ws r c = None).
Proof.
  intros Hgen Hkeys cur items n t Hr.
  destruct (sheet_cell _ _ _ _ _ _ r c Hgen Hkeys Hr) as (b & Hb & Hne & _ & Hcell).
  destruct (block_geometry d cur k Hne) as (Ht & Hlines & _ & Hd & Hn & _).
  subst cur items n t.
  unfold fill_at. rewrite Hcell. split_and!.
  - intros Hrow Hc. apply (field_written c_fill sets_fill fill_apply).
    + exists (SetFill header_fill). split; [| done].
      rewrite Hrow. by apply header_fill_written.
    + intros w x' Hw Hsel. destruct w as [| | f |]; try discriminate.
      injection Hsel as <-.
      apply group_fills in Hw as [(_ & _ & ->) | (Hrow' & _)]; [done |]. lia.
  - intros Hrow Hc. apply (field_written c_fill sets_fill fill_apply).
    + exists (SetFill total_fill). split; [| done].
      rewrite Hrow. by apply total_fill_written.
    + intros w x' Hw Hsel. destruct w as [| | f |]; try discriminate.
      injection Hsel as <-.
      apply group_fills in Hw as [(Hrow' & _) | (_ & _ & ->)]; [| done]. lia.
  - intros Hh Ht'. rewrite (field_unset c_fill sets_fill fill_apply); [done |].
    intros w Hw. destruct w as [| | f |]; try done.
    apply group_fills in Hw as [(Hrow' & Hc & _) | (Hrow' & Hc & _)].
    + destruct Hh. done.
    + destruct Ht'. done.
Qed.

Lemma fills_mark_header_and_total_witness :
  ∃ ws,
    generate_excel_file two_groups 12 = Ok ws
    ∧ fill_at ws 2 3 = Some header_fill
    ∧ fill_at ws 7 8 = Some total_fill.
Proof.
  destruct (generate_excel_file two_groups 12) as [ws|e] eqn:E;
    [| vm_compute in E; discriminate].
  exists ws. split; [reflexivity |]. split.
  - destruct (fills_mark_header_and_total two_groups 12 ws []
                [(Some "K2", Some "110V")] (Some "K1", Some "220V") 2 3 E eq_refl)
      as (H & _); [by vm_compute |].
    apply H; [reflexivity | by vm_compute].
  - destruct (fills_mark_header_and_total two_groups 12 ws []
                [(Some "K2", Some "110V")] (Some "K1", Some "220V") 7 8 E eq_refl)
      as (_ & H & _); [by vm_compute |].
    apply H; [reflexivity | by vm_compute].
Defined.

(** X8: the cells the handler creates in the rows of a group are exactly
    those of the block's rectangle (header row to total row, "Details" column
    to last supplier column), and each of them carries the outline border:
    thin on top in the header row only, at the bottom in the total row only,
    on the left in the first column only, on the right in the last column
    only. *)
Theorem border_outlines_the_block (d : DataFrame) (tax_percent : float)
    (ws : gmap (Z * Z) Cell) (pre post : list key) (k : key) (r c : Z) :
  generate_excel_file d tax_percent = Ok ws →
  group_keys d = pre ++ k :: post →
  let cur := row_after d pre 1 in
  let items := items_for_code d k.1 k.2 in
  let n := len (suppliers_of items) in
  let t := total_row_of items (descriptions_of items) cur in
  cur < r ≤ next_row d cur k →
  (is_Some (ws !! (r, c)) ↔ in_block items cur r c)
  ∧ (in_block items cur r c →
     border_at ws r c = Some (outline (cur + 1) t 2 (6 + n) r c)).
Proof.
  intros Hgen Hkeys cur items n t Hr.
  destruct (sheet_cell _ _ _ _ _ _ r c Hgen Hkeys Hr)
    as (b & Hb & Hne & Hlook & Hcell).
  subst cur items n t. unfold in_block. split.
  - rewrite Hlook. split.
    + intros Hsome. apply run_writes_created in Hsome as [[x Hx] | [w Hw]].
      * by rewrite lookup_empty in Hx.
      * split.
        -- apply (group_writes_rows _ _ _ _ _ _ _ _ (r, c, w)) in Hw; done.
        -- by apply group_columns in Hw.
    + intros [Hrow Hcol]. apply run_writes_touched. eexists.
      by apply group_border_written.
  - intros [Hrow Hcol]. unfold border_at. rewrite Hcell.
    apply (field_written c_border sets_border border_apply).
    + eexists. split; [by apply group_border_written | done].
    + intros w x' Hw Hsel. destruct w as [| | | e]; try discriminate.
      injection Hsel as <-. apply group_borders in Hw. by rewrite Hw.
Qed.

Lemma border_outlines_the_block_witness :
  ∃ ws,
    generate_excel_file two_groups 12 = Ok ws
    ∧ border_at ws 7 8
      = Some {| b_top := false; b_bottom := true; b_left := false;
                b_right := true |}
    ∧ ws !! (7, 9) = None.
Proof.
  destruct (generate_excel_file two_groups 12) as [ws|e] eqn:E;
    [| vm_compute in E; discriminate].
  exists ws. split; [reflexivity |]. split.
  - destruct (border_outlines_the_block two_groups 12 ws []
                [(Some "K2", Some "110V")] (Some "K1", Some "220V") 7 8 E eq_refl)
      as (_ & H); [by vm_compute |].
    apply H. by vm_compute.
  - destruct (border_outlines_the_block two_groups 12 ws []
                [(Some "K2", Some "110V")] (Some "K1", Some "220V") 7 9 E eq_refl)
      as (H & _); [by vm_compute |].
    destruct (ws !! (7, 9)) eqn:E9; [| done].
    assert (Hs : is_Some (Some c)) by eauto.
    apply H in Hs. vm_compute in Hs. destruct Hs as [_ [_ Hs]]. by destruct Hs.
Defined.

(** X9: in the rows of a group the currency format lies on the price cells
    of the description rows and on the total cells of the supplier columns,
    the percentage format on the tax cells of the supplier columns, and every
    other cell keeps the general format. *)
Theorem number_formats_by_row (d : DataFrame) (tax_percent : float)
    (ws : gmap (Z * Z) Cell) (pre post : list key) (k : key) (r c : Z) :
  generate_excel_file d tax_percent = Ok ws →
  group_keys d = pre ++ k :: post →
  let cur := row_after d pre 1 in
  let items := items_for_code d k.1 k.2 in
  let tax_row := tax_row_of items (descriptions_of items) cur in
  let t := total_row_of items (descriptions_of items) cur in
  cur < r ≤ next_row d cur k →
  (supplier_column items c → line_row items cur r ∨ r = t →
   format_at ws r c = FORMAT_CURRENCY_USD_SIMPLE)
  ∧ (supplier_column items c → r = tax_row →
     format_at ws r c = FORMAT_PERCENTAGE_00)
  ∧ (¬ (supplier_column items c ∧ (line_row items cur r ∨ r = tax_row ∨ r = t)) →
     format_at ws r c = FORMAT_GENERAL).
Proof.
  intros Hgen Hkeys cur items tax_row t Hr.
  destruct (sheet_cell _ _ _ _ _ _ r c Hgen Hkeys Hr) as (b & Hb & Hne & _ & Hcell).
  destruct (block_geometry d cur k Hne) as (Ht & Hlines & _ & Hd & Hn & _).
  subst cur items tax_row t.
  unfold format_at, supplier_column, line_row. rewrite Hcell. split_and!.
  - intros Hc Hrow.
    apply (field_written c_number_format sets_format format_apply).
    + exists (SetNumberFormat FORMAT_CURRENCY_USD_SIMPLE). split; [| done].
      destruct Hrow as [Hrow | ->].
      * by apply line_format_written.
      * by apply total_format_written.
    + intros w x' Hw Hsel. destruct w as [| f | |]; try discriminate.
      injection Hsel as <-.
      apply group_formats in Hw as (_ & [[_ ->] | [[Hrow' ->] | [_ ->]]]);
        try done.
      lia.
  - intros Hc Hrow.
    apply (field_written c_number_format sets_format format_apply).
    + exists (SetNumberFormat FORMAT_PERCENTAGE_00). split; [| done].
      rewrite Hrow. by apply tax_format_written.
    + intros w x' Hw Hsel. destruct w as [| f | |]; try discriminate.
      injection Hsel as <-.
      apply group_formats in Hw as (_ & [[Hrow' ->] | [[_ ->] | [Hrow' ->]]]);
        try done.
      * lia.
      * lia.
  - intros Hno.
    rewrite (field_unset c_number_format sets_format format_apply); [done |].
    intros w Hw. destruct w as [| f | |]; try done.
    apply group_formats in Hw as (Hc & Hrow).
    destruct Hno. split; [done |]. tauto.
Qed.

Lemma number_formats_by_row_witness :
  ∃ ws,
    generate_excel_file two_groups 12 = Ok ws
    ∧ format_at ws 3 7 = FORMAT_CURRENCY_USD_SIMPLE
    ∧ format_at ws 6 8 = FORMAT_PERCENTAGE_00.
Proof.
  destruct (generate_excel_file two_groups 12) as [ws|e] eqn:E;
    [| vm_compute in E; discriminate].
  exists ws. split; [reflexivity |]. split.
  - destruct (number_formats_by_row two_groups 12 ws []
                [(Some "K2", Some "110V")] (Some "K1", Some "220V") 3 7 E eq_refl)
      as (H & _); [by vm_compute |].
    apply H; [by vm_compute | left; by vm_compute].
  - destruct (number_formats_by_row two_groups 12 ws []
                [(Some "K2", Some "110V")] (Some "K1", Some "220V") 6 8 E eq_refl)
      as (_ & H & _); [by vm_compute |].
    apply H; [by vm_compute | reflexivity].
Defined.

(** ** The total formula and the identity cells *)

Lemma no_value_between (items : DataFrame) (suppliers descriptions : list cell)
    (b code power_type : cell) (tax_rate : float) (cur r c : Z) (v : value) :
  (r, c, SetValue v)
  ∈ group_writes items suppliers descriptions b code power_type tax_rate cur →
  7 ≤ c →
  cur + 1 + len descriptions < r < tax_row_of items descriptions cur →
  False.
Proof.
  intros H Hc Hr. apply group_writes_value in H. cbv zeta in H.
  assert (Hlen : 0 ≤ len descriptions) by (unfold len; lia).
  destruct H as [[Hr1 _] | [[_ Hc1] | [(i & d0 & Hd & Hr1 & _) | [[Hr1 _] | [Hr1 _]]]]];
    try lia.
  apply len_lookup in Hd. lia.
Qed.

(** X10: in a supplier column the total cell holds the formula
    SUM(first description row : row above the tax row) * (1 + tax cell), the
    tax cell holds the rate tax_percent / 100, and every cell of the summed
    range is either the line formula of a description row or holds no value
    (the rows left free above the tax row): the sum runs over the line
    formulas of that supplier and nothing else. *)
Theorem total_formula_sums_the_lines (d : DataFrame) (tax_percent : float)
    (ws : gmap (Z * Z) Cell) (pre post : list key) (k : key) (c : Z) :
  generate_excel_file d tax_percent = Ok ws →
  group_keys d = pre ++ k :: post →
  let tax_rate := py_truediv (PyFloat tax_percent) (PyInt 100) in
  let cur := row_after d pre 1 in
  let items := items_for_code d k.1 k.2 in
  let tax_row := tax_row_of items (descriptions_of items) cur in
  let t := total_row_of items (descriptions_of items) cur in
  supplier_column items c →
  value_at ws t c
  = Some (VFormula (EMul (ESum c (cur + 2) (tax_row - 1))
                      (EAdd (ENum (PyInt 1)) (ERef c tax_row))))
  ∧ value_at ws tax_row c = Some (VNum (PyFloat tax_rate))
  ∧ ∀ r, cur + 2 ≤ r ≤ tax_row - 1 →
      (line_row items cur r →
       ∃ s desc,
         suppliers_of items !! Z.to_nat (c - 7) = Some s
         ∧ descriptions_of items !! Z.to_nat (r - cur - 2) = Some desc
         ∧ value_at ws r c
           = Some (VFormula (EMul (ERef 5 r) (ENum (lookup_price items s desc)))))
      ∧ (¬ line_row items cur r → value_at ws r c = None).
Proof.
  intros Hgen Hkeys tax_rate cur items tax_row t Hc.
  destruct (sheet_block _ _ _ _ _ _ Hgen Hkeys) as (b0 & Hb0 & _).
  pose proof (brand_descriptions _ _ Hb0) as Hne.
  destruct (block_geometry d cur k Hne) as (Ht & Hlines & Htax & Hd & Hn & Hnext).
  subst tax_rate cur items tax_row t. unfold supplier_column, line_row in *.
  split_and!.
  - rewrite Ht.
    apply (sheet_value _ _ _ _ _ _ _ _ _ Hgen Hkeys); [lia | lia |].
    intros b. by apply total_formula_written.
  - apply (sheet_value _ _ _ _ _ _ _ _ _ Hgen Hkeys); [lia | lia |].
    intros b. by apply tax_value_written.
  - intros r Hr. split.
    + intros Hline.
      destruct (line_formula_at (items_for_code d k.1 k.2)
                  (suppliers_of (items_for_code d k.1 k.2))
                  (descriptions_of (items_for_code d k.1 k.2)) b0 k.1 k.2
                  (py_truediv (PyFloat tax_percent) (PyInt 100))
                  (row_after d pre 1) r c Hline Hc) as (s & desc & Hs & Hdesc & _).
      exists s, desc. split_and!; [done | done |].
      apply (sheet_value _ _ _ _ _ _ _ _ _ Hgen Hkeys); [lia | lia |].
      intros b.
      destruct (line_formula_at (items_for_code d k.1 k.2)
                  (suppliers_of (items_for_code d k.1 k.2))
                  (descriptions_of (items_for_code d k.1 k.2)) b k.1 k.2
                  (py_truediv (PyFloat tax_percent) (PyInt 100))
                  (row_after d pre 1) r c Hline Hc) as (s' & desc' & Hs' & Hdesc' & Hin).
      congruence.
    + intros Hline.
      assert (Hrange : row_after d pre 1 < r ≤ next_row d (row_after d pre 1) k)
        by lia.
      destruct (sheet_cell _ _ _ _ _ _ r c Hgen Hkeys Hrange)
        as (b & _ & _ & _ & Hcell).
      rewrite value_at_cell_at, Hcell.
      rewrite (field_unset c_value sets_value value_apply); [done |].
      intros w Hw. destruct w as [v | | |]; try done.
      exfalso. apply (no_value_between _ _ _ _ _ _ _ _ _ _ _ Hw); lia.
Qed.

Lemma total_formula_sums_the_lines_witness :
  ∃ ws,
    generate_excel_file two_groups 12 = Ok ws
    ∧ value_at ws 7 8
      = Some (VFormula (EMul (ESum 8 3 5) (EAdd (ENum (PyInt 1)) (ERef 8 6))))
    ∧ value_at ws 6 8 = Some (VNum (PyFloat 0.12)).
Proof.
  destruct (generate_excel_file two_groups 12) as [ws|e] eqn:E;
    [| vm_compute in E; discriminate].
  exists ws. split; [reflexivity |].
  destruct (total_formula_sums_the_lines two_groups 12 ws []
              [(Some "K2", Some "110V")] (Some "K1", Some "220V") 8 E eq_refl)
    as (Ht & Htax & _); [by vm_compute |].
  split; [exact Ht | exact Htax].
Defined.

Lemma identity_written (items : DataFrame) (suppliers descriptions : list cell)
    (b code power_type : cell) (tax_rate : float) (cur : Z) :
  let ops :=
    group_writes items suppliers descriptions b code power_type tax_rate cur in
  (cur + 2, 2, SetValue (VText (Some "Brand"))) ∈ ops
  ∧ (cur + 2, 3, SetValue (VText b)) ∈ ops
  ∧ (cur + 3, 2, SetValue (VText (Some "Code"))) ∈ ops
  ∧ (cur + 3, 3, SetValue (VText code)) ∈ ops
  ∧ (cur + 4, 2, SetValue (VText (Some "Power Type"))) ∈ ops
  ∧ (cur + 4, 3, SetValue (VText power_type)) ∈ ops.
Proof.
  intros ops. unfold ops, group_writes, identity_writes. offs.
  replace (cur + 1 + 1) with (cur + 2) by lia.
  replace (cur + 2 + 1) with (cur + 3) by lia.
  replace (cur + 1 + 2 + 1) with (cur + 4) by lia.
  split_and!; apply elem_of_app; right; apply elem_of_app; left.
  - left.
  - right. left.
  - do 2 right. left.
  - do 3 right. left.
  - do 4 right. left.
  - do 5 right. left.
Qed.

Lemma identity_values (items : DataFrame) (suppliers descriptions : list cell)
    (b code power_type : cell) (tax_rate : float) (cur r c : Z) (v : value) :
  (r, c, SetValue v)
  ∈ group_writes items suppliers descriptions b code power_type tax_rate cur →
  2 ≤ c ≤ 3 → cur + 2 ≤ r →
  (r = cur + 2 ∧ c = 2 ∧ v = VText (Some "Brand"))
  ∨ (r = cur + 2 ∧ c = 3 ∧ v = VText b)
  ∨ (r = cur + 3 ∧ c = 2 ∧ v = VText (Some "Code"))
  ∨ (r = cur + 3 ∧ c = 3 ∧ v = VText code)
  ∨ (r = cur + 4 ∧ c = 2 ∧ v = VText (Some "Power Type"))
  ∨ (r = cur + 4 ∧ c = 3 ∧ v = VText power_type).
Proof.
  intros H Hc Hr. unfold group_writes in H. rewrite !elem_of_app in H.
  destruct H as [H | [H | [H | [H | [H | H]]]]].
  - apply header_writes_shape in H. lia.
  - apply identity_writes_shape in H.
    destruct H as [H | [H | [H | [H | [H | H]]]]];
      destruct H as (-> & -> & [= ->]).
    + left. split_and!; (lia || done).
    + right. left. split_and!; (lia || done).
    + do 2 right. left. split_and!; (lia || done).
    + do 3 right. left. split_and!; (lia || done).
    + do 4 right. left. split_and!; (lia || done).
    + do 5 right. split_and!; (lia || done).
  - apply elem_of_concat in H as (l & Hl & H).
    apply elem_of_lookup_imap in Hl as (i & d0 & -> & _).
    apply line_writes_shape in H. lia.
  - apply tax_writes_shape in H. lia.
  - apply total_writes_shape in H. lia.
  - apply border_writes_shape in H as (_ & _ & [=]).
Qed.

Lemma first_item_brand (before after : DataFrame) (r : Row) (code power_type : cell) :
  in_group code power_type r = true → r_type r = Some "item" →
  (∀ r', r' ∈ before →
         ¬ (in_group code power_type r' = true ∧ r_type r' = Some "item")) →
  first_brand (items_for_code (before ++ r :: after) code power_type) = r_brand r.
Proof.
  intros Hin Hitem Hno. unfold first_brand, items_for_code.
  rewrite !List.filter_app. simpl. rewrite Hin. simpl.
  apply is_item_iff in Hitem. rewrite Hitem.
  replace (List.filter is_item (List.filter (in_group code power_type) before))
    with (@nil Row); [done |].
  symmetry. induction before as [|r' before IH]; [done |]. simpl.
  destruct (in_group code power_type r') eqn:E; simpl.
  - destruct (is_item r') eqn:E'.
    + apply is_item_iff in E'. destruct (Hno r'); [left | done].
    + apply IH. intros r'' Hr''. apply Hno. by right.
  - apply IH. intros r'' Hr''. apply Hno. by right.
Qed.

(** X11: the identity cells of a block hold the labels Brand, Code and Power
    Type in the first column and, beside them, the group's brand and the two
    parts of its key; the brand is that of the first row of the table that
    belongs to the group and has type "item", whatever brands the later rows
    of the group carry. *)
Theorem identity_cells_show_first_item_brand (d : DataFrame) (tax_percent : float)
    (ws : gmap (Z * Z) Cell) (pre post : list key) (k : key) :
  generate_excel_file d tax_percent = Ok ws →
  group_keys d = pre ++ k :: post →
  let cur := row_after d pre 1 in
  let items := items_for_code d k.1 k.2 in
  value_at ws (cur + 2) 2 = Some (VText (Some "Brand"))
  ∧ value_at ws (cur + 2) 3 = Some (VText (first_brand items))
  ∧ value_at ws (cur + 3) 2 = Some (VText (Some "Code"))
  ∧ value_at ws (cur + 3) 3 = Some (VText k.1)
  ∧ value_at ws (cur + 4) 2 = Some (VText (Some "Power Type"))
  ∧ value_at ws (cur + 4) 3 = Some (VText k.2)
  ∧ (∀ before r after,
       d = before ++ r :: after →
       in_group k.1 k.2 r = true → r_type r = Some "item" →
       (∀ r', r' ∈ before →
              ¬ (in_group k.1 k.2 r' = true ∧ r_type r' = Some "item")) →
       first_brand items = r_brand r).
Proof.
  intros Hgen Hkeys cur items.
  destruct (sheet_block _ _ _ _ _ _ Hgen Hkeys) as (b & Hb & _).
  pose proof (brand_descriptions _ _ Hb) as Hne.
  destruct (block_geometry d cur k Hne) as (Ht & Hlines & Htax & Hd & Hn & Hnext).
  pose proof (brand_of_first_brand _ _ Hb) as [Hfirst _].
  assert (Hcell : ∀ r c v,
            cur + 2 ≤ r ≤ cur + 4 → 2 ≤ c ≤ 3 →
            (∀ b', brand_of items = Ok b' →
                   (r, c, SetValue v)
                   ∈ group_writes items (suppliers_of items) (descriptions_of items)
                       b' k.1 k.2 (py_truediv (PyFloat tax_percent) (PyInt 100))
                       cur) →
            value_at ws r c = Some v).
  { intros r c v Hr Hc Hin.
    assert (Hrange : cur < r ≤ next_row d cur k) by (subst cur items; lia).
    destruct (sheet_cell _ _ _ _ _ _ r c Hgen Hkeys Hrange)
      as (b' & Hb' & _ & _ & Hcell).
    rewrite value_at_cell_at, Hcell.
    apply (field_written c_value sets_value value_apply).
    - eexists. split; [apply (Hin b' Hb') | done].
    - intros w x' Hw Hsel. destruct w as [v' | | |]; try discriminate.
      injection Hsel as <-. f_equal.
      pose proof (identity_values _ _ _ _ _ _ _ _ _ _ _ Hw Hc ltac:(lia)) as H1.
      pose proof (identity_values _ _ _ _ _ _ _ _ _ _ _ (Hin b' Hb') Hc ltac:(lia))
        as H2.
      destruct H1 as [H1 | [H1 | [H1 | [H1 | [H1 | H1]]]]];
        destruct H1 as (Hr1 & Hc1 & ->);
        destruct H2 as [H2 | [H2 | [H2 | [H2 | [H2 | H2]]]]];
        destruct H2 as (Hr2 & Hc2 & ->); (done || lia). }
  split_and!.
  - apply Hcell; [lia | lia |]. intros b' _. apply identity_written.
  - apply Hcell; [lia | lia |]. intros b' Hb'.
    replace (first_brand items) with b'; [apply identity_written |].
    by apply brand_of_first_brand in Hb' as [-> _].
  - apply Hcell; [lia | lia |]. intros b' _. apply identity_written.
  - apply Hcell; [lia | lia |]. intros b' _. apply identity_written.
  - apply Hcell; [lia | lia |]. intros b' _. apply identity_written.
  - apply Hcell; [lia | lia |]. intros b' _. apply identity_written.
  - intros before r after -> Hin Hitem Hno. by apply first_item_brand.
Qed.

Lemma identity_cells_show_first_item_brand_witness :
  ∃ ws,
    generate_excel_file two_groups 12 = Ok ws
    ∧ value_at ws 12 3 = Some (VText (Some "Bolt"))
    ∧ value_at ws 14 3 = Some (VText (Some "110V")).
Proof.
  destruct (generate_excel_file two_groups 12) as [ws|e] eqn:E;
    [| vm_compute in E; discriminate].
  exists ws. split; [reflexivity |].
  destruct (identity_cells_show_first_item_brand two_groups 12 ws
              [(Some "K1", Some "220V")] [] (Some "K2", Some "110V") E eq_refl)
    as (_ & Hbrand & _ & _ & _ & Hpt & _).
  split; [exact Hbrand | exact Hpt].
Defined.

(** ** Rows that reach no group *)

Lemma for_each_ext_in {A S : Type} (f g : S → A → result S) (l : list A) (s : S) :
  (∀ s x, x ∈ l → f s x = g s x) → for_each f l s = for_each g l s.
Proof.
  revert s. induction l as [|x l IH]; intros s Hfg; [done |].
  rewrite !for_each_cons, Hfg by left. destruct (g s x); [| done].
  rewrite !bind_Ok. apply IH. intros s' y Hy. apply Hfg. by right.
Qed.

Lemma group_keys_used (d : DataFrame) :
  group_keys (List.filter (used d) d) = group_keys d.
Proof.
  unfold group_keys, main_items. rewrite filter_filter_implies; [done |].
  intros r Hr. unfold used. by rewrite Hr.
Qed.

Lemma items_for_code_used (d : DataFrame) (k : key) :
  k ∈ group_keys d →
  items_for_code (List.filter (used d) d) k.1 k.2 = items_for_code d k.1 k.2.
Proof.
  intros Hk. unfold items_for_code. apply filter_filter_implies.
  intros r Hr. unfold used. apply orb_true_iff. right.
  apply existsb_exists. exists k. split; [by apply list_elem_of_In | done].
Qed.

(** X12: the report depends only on the rows that give a key or belong to
    the group of a key: dropping all other rows changes neither the markup
    nor the sheet.  In particular a subitem row with a Power Type that is not
    blank, and that no item row of the same code carries, is left out
    without notice. *)
Theorem unmatched_rows_are_dropped (d : DataFrame) (tax_percent : float) :
  generate_html_table (List.filter (used d) d) tax_percent
  = generate_html_table d tax_percent
  ∧ generate_excel_file (List.filter (used d) d) tax_percent
    = generate_excel_file d tax_percent
  ∧ (∀ r, r_type r = Some "subitem" → ¬ blank (r_power_type r) →
          key_of r ∉ group_keys d → used d r = false).
Proof.
  split_and!.
  - unfold generate_html_table. rewrite group_keys_used. f_equal.
    apply for_each_ext_in. intros html k Hk.
    pose proof (items_for_code_used d k Hk) as Hitems.
    destruct k as [code power_type]. unfold html_group.
    simpl in Hitems. by rewrite Hitems.
  - unfold generate_excel_file. rewrite group_keys_used. f_equal.
    apply for_each_ext_in. intros [ws cur] k Hk.
    pose proof (items_for_code_used d k Hk) as Hitems.
    destruct k as [code power_type]. unfold xlsx_group.
    simpl in Hitems. by rewrite Hitems.
  - intros r Ht Hp Hkey. unfold used. apply orb_false_iff. split.
    + destruct (is_main_item r) eqn:E; [| done].
      apply is_main_item_iff in E as [E _]. congruence.
    + destruct (existsb _ (group_keys d)) eqn:E; [| done].
      apply existsb_exists in E as (k & Hk & Hin).
      apply list_elem_of_In in Hk. apply in_group_iff in Hin as (Hc & Hpt & _).
      destruct Hpt as [Hpt | Hbl]; [| done].
      destruct Hkey. replace (key_of r) with k; [done |].
      destruct k as [kc kp]. unfold key_of. simpl in *.
      destruct Hc as (x & -> & ->). destruct Hpt as (y & -> & ->). done.
Qed.

Lemma unmatched_rows_are_dropped_witness :
  used with_orphan
    (quote (Some "subitem") (Some "A") None (Some "K1") (Some "Z") (Some "110V") 2)
  = false.
Proof.
  apply (proj2 (proj2 (unmatched_rows_are_dropped with_orphan 12))).
  - reflexivity.
  - intros [H | H]; discriminate.
  - vm_compute. intros H.
    apply elem_of_cons in H as [H | H]; [discriminate |]. by apply elem_of_nil in H.
Defined.

(** ** A table as loaded from a file *)


Lemma elem_of_normalize (strip : string → string) (na : cell) (raw : DataFrame)
    (r : Row) :
  r ∈ normalize strip na raw ↔ ∃ r0, r0 ∈ raw ∧ r = normalize_row strip na r0.
Proof. unfold normalize. apply elem_of_map. Qed.



(** X14: where [astype(str)] turns a missing value into a text that does not
    strip to the empty string (pandas prints "nan"), a Power Type that was
    empty in the file is not blank after loading: the row belongs to no group
    whose Power Type is another text, so the "or blank" branch of the group
    filter is not met by cells that were empty in the file. *)
Theorem empty_power_type_is_text_after_load (strip : string → string) (na : cell)
    (x : string) (r0 : Row) :
  na = Some x → strip x ≠ EmptyString → r_power_type r0 = None →
  let r := normalize_row strip na r0 in
  r_power_type r = Some (strip x)
  ∧ ¬ blank (r_power_type r)
  ∧ (∀ code power_type, power_type ≠ Some (strip x) →
       in_group code power_type r = false)
  ∧ (r_type r = Some "item" →
     ∀ raw, r0 ∈ raw → (r_code r, Some (strip x)) ∈ group_keys (normalize strip na raw)).
Proof.
  intros -> Hx Hpt r.
  assert (Hr : r_power_type r = Some (strip x)).
  { unfold r. simpl. by rewrite Hpt. }
  assert (Hnb : ¬ blank (r_power_type r)).
  { rewrite Hr. intros [H | H]; congruence. }
  split_and!; [done | done | |].
  - intros code power_type Hne.
    destruct (in_group code power_type r) eqn:E; [| done].
    apply in_group_iff in E as (_ & [(y & Hy & ->) | Hbl] & _); [| done].
    congruence.
  - intros Ht raw Hraw. apply elem_of_group_keys. exists r.
    split_and!; [| done | done | by rewrite <- Hr].
    apply elem_of_normalize. eauto.
Qed.

Lemma empty_power_type_is_text_after_load_witness :
  in_group (Some "K1") (Some "220V")
    (normalize_row (λ s, s) (Some "nan")
       (quote (Some "subitem") (Some "A") None (Some "K1") (Some "Z") None 2))
  = false.
Proof.
  apply (empty_power_type_is_text_after_load (λ s, s) (Some "nan") "nan"
           (quote (Some "subitem") (Some "A") None (Some "K1") (Some "Z") None 2)
           eq_refl ltac:(discriminate) eq_refl).
  discriminate.
Defined.

(** ** The PDF section and the session *)

(** X15: the PDF section changes the session in one case only: three files,
    a pressed button and a reply with status 200; then the dataset is the
    table loaded from the reply and the job fields are reset, and the run is
    restarted.  On any other reply it reports the error and stops, and the
    session is as before.  In every run at most one request is sent, and it
    carries one entry per file, in upload order, under the file's name. *)
Theorem session_changes_only_on_success (POWER_AUTOMATE_URL : string)
    (b64encode : string → string) (load_csv : string → DataFrame)
    (power_automate : list (string * string) → Response)
    (pdfs : list UploadedFile) (clicked : bool) (ss : session_state) :
  let run :=
    pdf_section POWER_AUTOMATE_URL b64encode load_csv power_automate pdfs clicked ss in
  let files_payload := map (λ pdf, (name pdf, b64encode (content pdf))) pdfs in
  let reply := power_automate files_payload in
  (length pdfs ≠ 3%nat ∨ clicked = false ∨ status_code reply ≠ 200 → run.2 = ss)
  ∧ (length pdfs = 3%nat → clicked = true → status_code reply ≠ 200 →
     run.1 = [ requests_post POWER_AUTOMATE_URL files_payload 180;
               st_error "Power Automate failed to process PDFs"; st_stop ])
  ∧ (length pdfs = 3%nat → clicked = true → status_code reply = 200 →
     run.1 = [ requests_post POWER_AUTOMATE_URL files_payload 180;
               st_success "✅ CSV generated from PDFs and loaded"; st_rerun ]
     ∧ run.2 = {| df := Some (load_csv (csv reply)); current_job_path := None;
                  job_loaded_from_queue := false |})
  ∧ (length (List.filter is_post run.1) ≤ 1)%nat
  ∧ map fst files_payload = map name pdfs.
Proof.
  intros run files_payload reply.
  unfold run, pdf_section, len. fold files_payload. fold reply.
  destruct (Z.eqb_spec (Z.of_nat (length pdfs)) 3) as [H3 | H3].
  - assert (Hne : pdfs ≠ []) by (intros ->; simpl in H3; lia).
    rewrite bool_decide_false by done. simpl.
    destruct clicked; simpl;
      [destruct (Z.eqb_spec (status_code reply) 200) as [H200 | H200]; simpl |];
      split_and!;
      try (unfold files_payload; by rewrite map_map);
      try (intros; first [done | lia]);
      try (intros [? | [? | ?]]; first [done | lia]).
  - rewrite andb_false_r. simpl.
    split_and!;
      try (unfold files_payload; by rewrite map_map);
      try (intros; first [done | lia]).
    destruct (negb (bool_decide (pdfs = []))); simpl; lia.
Qed.

Lemma session_changes_only_on_success_witness :
  (pdf_section "https://flow.example/invoke" (λ s, s) (λ _, two_by_two)
     (λ _, {| status_code := 500; csv := EmptyString |})
     [ {| name := "a.pdf"; content := "A" |}; {| name := "b.pdf"; content := "B" |};
       {| name := "c.pdf"; content := "C" |} ]
     true
     {| df := Some eighth; current_job_path := None;
        job_loaded_from_queue := false |}).2
  = {| df := Some eighth; current_job_path := None;
       job_loaded_from_queue := false |}.
Proof.
  apply (session_changes_only_on_success "https://flow.example/invoke" (λ s, s)
           (λ _, two_by_two) (λ _, {| status_code := 500; csv := EmptyString |})
           [ {| name := "a.pdf"; content := "A" |};
             {| name := "b.pdf"; content := "B" |};
             {| name := "c.pdf"; content := "C" |} ]
           true
           {| df := Some eighth; current_job_path := None;
              job_loaded_from_queue := false |}).
  right. right. simpl. lia.
Defined.
